(** * A shallow embedding of the web-scrapper service ([app.py])

    The service has two operations: [scrape_website] fetches a page,
    archives the stylesheets and scripts it links to under [static/] and
    stores one document per page in a MongoDB collection; [render_template]
    looks a stored document up by its identifier.

    The handlers are embedded as computations in a state monad over a
    [World] made of the files on disk, the collection and the trace of the
    effects performed.  The libraries the handlers call are embedded as far
    as the handlers depend on them: [urljoin] and [os.path.join] after the
    CPython sources, [raise_for_status] after requests, the tag search of
    BeautifulSoup, the route table of FastAPI/Starlette.  The network, the
    HTML parser and the pretty-printer are parameters of the development.

    Exceptions: a [RequestException] of requests is caught by the
    handlers; the [ValueError] of [urljoin] is not and leaves
    [scrape_website] uncaught, which the server answers with status 500.
    The checks of [urlsplit] that belong to other libraries (the IP
    address in a bracketed host, the NFKC form of a non-ASCII host) are
    parameters.  [OSError] from writing a file and the errors of the
    connection to the database are outside the model.  Paths are POSIX
    paths.  Strings are strings of bytes.

    Identifiers: the identifier of a document is twelve bytes.
    [ObjectId] reads a text of twenty-four characters with
    [bytes.fromhex], which skips white space, so the bytes it hands to
    [find_one] may be fewer; they are then the identifier of no
    document. *)

From Stdlib Require Import Ascii String.
From Stdlib Require Strings.Byte.
From stdpp Require Import base tactics option list strings pretty gmap vector.

Set Warnings "-register-all".
Local Open Scope string_scope.
Local Open Scope list_scope.

(** ** Python string operations *)

Module PyStr.

Fixpoint contains (c : ascii) (s : string) : bool :=
  match s with
  | "" => false
  | String a s' => if Ascii.eqb a c then true else contains c s'
  end.

(** [s.find(c)]: the index of the first occurrence. *)
Fixpoint find (c : ascii) (s : string) : option nat :=
  match s with
  | "" => None
  | String a s' => if Ascii.eqb a c then Some 0 else S <$> find c s'
  end.

(** [s.rfind(c)]: the index of the last occurrence. *)
Fixpoint rfind (c : ascii) (s : string) : option nat :=
  match s with
  | "" => None
  | String a s' =>
      match rfind c s' with
      | Some i => Some (S i)
      | None => if Ascii.eqb a c then Some 0 else None
      end
  end.

(** [s[:n]] and [s[n:]]. *)
Fixpoint take (n : nat) (s : string) : string :=
  match n, s with
  | S n', String a s' => String a (take n' s')
  | _, _ => ""
  end.

Fixpoint drop (n : nat) (s : string) : string :=
  match n, s with
  | S n', String _ s' => drop n' s'
  | _, _ => s
  end.

(** [s.find(c, start)]. *)
Definition find_from (c : ascii) (start : nat) (s : string) : option nat :=
  (fun i => start + i) <$> find c (drop start s).

(** [s.split(c, 1)] for a string that contains [c]; the whole string and
    [""] otherwise. *)
Definition partition (c : ascii) (s : string) : string * string :=
  match find c s with
  | Some i => (take i s, drop (S i) s)
  | None => (s, "")
  end.

(** [s.split(c)]: never the empty list. *)
Fixpoint split (c : ascii) (s : string) : list string :=
  match s with
  | "" => [""]
  | String a s' =>
      if Ascii.eqb a c then "" :: split c s'
      else match split c s' with
           | w :: ws => String a w :: ws
           | [] => [String a ""]
           end
  end.

(** [sep.join(l)]. *)
Fixpoint join (sep : string) (l : list string) : string :=
  match l with
  | [] => ""
  | [w] => w
  | w :: ws => w +:+ sep +:+ join sep ws
  end.

Definition startswith (p s : string) : bool := String.prefix p s.

Fixpoint last_char (s : string) : option ascii :=
  match s with
  | "" => None
  | String a "" => Some a
  | String _ s' => last_char s'
  end.

(** [s.endswith(c)] for a one-character [c]. *)
Definition endswith (c : ascii) (s : string) : bool :=
  match last_char s with
  | Some a => Ascii.eqb a c
  | None => false
  end.

(** [s.lstrip(chars)] and [s.rstrip(chars)], [chars] given as a test. *)
Fixpoint lstrip (p : ascii -> bool) (s : string) : string :=
  match s with
  | String a s' => if p a then lstrip p s' else s
  | "" => ""
  end.

Fixpoint rstrip (p : ascii -> bool) (s : string) : string :=
  match s with
  | "" => ""
  | String a s' =>
      match rstrip p s' with
      | "" => if p a then "" else String a ""
      | r => String a r
      end
  end.

Definition strip (p : ascii -> bool) (s : string) : string :=
  rstrip p (lstrip p s).

(** Removes every character that satisfies [p]: a chain of
    [s.replace(b, "")], one per such character. *)
Fixpoint remove (p : ascii -> bool) (s : string) : string :=
  match s with
  | "" => ""
  | String a s' => if p a then remove p s' else String a (remove p s')
  end.

Fixpoint forallb (p : ascii -> bool) (s : string) : bool :=
  match s with
  | "" => true
  | String a s' => p a && forallb p s'
  end.

Definition is_upper (a : ascii) : bool :=
  let n := nat_of_ascii a in (65 <=? n)%nat && (n <=? 90)%nat.
Definition is_lower (a : ascii) : bool :=
  let n := nat_of_ascii a in (97 <=? n)%nat && (n <=? 122)%nat.
Definition is_digit (a : ascii) : bool :=
  let n := nat_of_ascii a in (48 <=? n)%nat && (n <=? 57)%nat.
(** [c.isascii() and c.isalpha()]. *)
Definition is_ascii_alpha (a : ascii) : bool := is_upper a || is_lower a.

Definition lower_char (a : ascii) : ascii :=
  if is_upper a then ascii_of_nat (nat_of_ascii a + 32) else a.

Fixpoint lower (s : string) : string :=
  match s with
  | "" => ""
  | String a s' => String (lower_char a) (lower s')
  end.

(** [s.isascii()]. *)
Definition isascii (s : string) : bool :=
  forallb (fun a => (nat_of_ascii a <? 128)%nat) s.

(** [s.rpartition(c)[2]]: what follows the last [c], the whole string
    when there is none. *)
Definition after_last (c : ascii) (s : string) : string :=
  match rfind c s with
  | Some i => drop (S i) s
  | None => s
  end.

(** The truth value of a string: [bool(s)]. *)
Definition truthy (s : string) : bool :=
  match s with "" => false | _ => true end.

End PyStr.
(** ** [urllib.parse]: [urljoin] and what it calls *)

Module urllib_parse.
Import PyStr.

Definition uses_relative : list string :=
  [""; "ftp"; "http"; "gopher"; "nntp"; "imap";
   "wais"; "file"; "https"; "shttp"; "mms";
   "prospero"; "rtsp"; "rtspu"; "sftp";
   "svn"; "svn+ssh"; "ws"; "wss"].

Definition uses_netloc : list string :=
  [""; "ftp"; "http"; "gopher"; "nntp"; "telnet";
   "imap"; "wais"; "file"; "mms"; "https"; "shttp";
   "snews"; "prospero"; "rtsp"; "rtspu"; "rsync";
   "svn"; "svn+ssh"; "sftp"; "nfs"; "git"; "git+ssh";
   "ws"; "wss"].

Definition uses_params : list string :=
  [""; "ftp"; "hdl"; "prospero"; "http"; "imap";
   "https"; "shttp"; "rtsp"; "rtspu"; "sip"; "sips";
   "mms"; "sftp"; "tel"].

Definition member (s : string) (l : list string) : bool :=
  bool_decide (s ∈ l).

(** [c in scheme_chars]. *)
Definition scheme_char (a : ascii) : bool :=
  is_lower a || is_upper a || is_digit a
  || Ascii.eqb a "+" || Ascii.eqb a "-" || Ascii.eqb a ".".

(** [c in _WHATWG_C0_CONTROL_OR_SPACE]. *)
Definition c0_control_or_space (a : ascii) : bool :=
  (nat_of_ascii a <=? 32)%nat.

(** [c in _UNSAFE_URL_BYTES_TO_REMOVE]: tab, carriage return, newline. *)
Definition unsafe_url_byte (a : ascii) : bool :=
  let n := nat_of_ascii a in
  (n =? 9)%nat || (n =? 13)%nat || (n =? 10)%nat.

(** [_splitnetloc(url, 2)]. *)
Definition _splitnetloc (url : string) : string * string :=
  let start := 2 in
  let delim :=
    foldl (fun delim c =>
             match find_from c start url with
             | Some wdelim => Nat.min delim wdelim
             | None => delim
             end)
          (String.length url) ["/"; "?"; "#"]%char in
  (take (delim - start) (drop start url), drop delim url).

Record SplitResult := {
  s_scheme : string; s_netloc : string; s_path : string;
  s_query : string; s_fragment : string }.

(** A [ValueError]; [str_value_error e] is [str(e)]. *)
Record ValueError := { str_value_error : string }.

(** The checks of [urlsplit] that other libraries decide: whether
    [_check_bracketed_host(hostname)] raises (it asks [ipaddress] and
    [re]), and whether [_checknetloc(netloc)] raises on a netloc that is
    not ASCII (it asks [unicodedata]).  [None]: the check returns. *)
Record Library := {
  _check_bracketed_host : string -> option ValueError;
  _checknetloc_non_ascii : string -> option ValueError }.

(** [_check_bracketed_netloc(netloc)]: the [ValueError] raised, if
    any. *)
Definition _check_bracketed_netloc (lib : Library) (netloc : string)
  : option ValueError :=
  let hostname_and_port := after_last "@" netloc in
  match find "[" hostname_and_port with
  | Some i =>
      let before_bracket := take i hostname_and_port in
      let bracketed := drop (S i) hostname_and_port in
      if truthy before_bracket
      then Some {| str_value_error := "Invalid IPv6 URL" |}
      else
        let '(hostname, port) := partition "]" bracketed in
        if truthy port && negb (startswith ":" port)
        then Some {| str_value_error := "Invalid IPv6 URL" |}
        else _check_bracketed_host lib hostname
  | None =>
      let '(hostname, _) := partition ":" hostname_and_port in
      _check_bracketed_host lib hostname
  end.

(** [_checknetloc(netloc)]: the [ValueError] raised, if any. *)
Definition _checknetloc (lib : Library) (netloc : string)
  : option ValueError :=
  if negb (truthy netloc) || isascii netloc then None
  else _checknetloc_non_ascii lib netloc.

(** [urlsplit(url, scheme)], with [allow_fragments] true: the parts of
    the URL, or the [ValueError] raised. *)
Definition urlsplit (lib : Library) (url scheme : string)
  : ValueError + SplitResult :=
  let url := lstrip c0_control_or_space url in
  let scheme := strip c0_control_or_space scheme in
  let url := remove unsafe_url_byte url in
  let scheme := remove unsafe_url_byte scheme in
  let '(scheme, url) :=
    match find ":" url, url with
    | Some (S i' as i), String c0 _ =>
        if is_ascii_alpha c0 && forallb scheme_char (take i url)
        then (lower (take i url), drop (S i) url)
        else (scheme, url)
    | _, _ => (scheme, url)
    end in
  let '(netloc, url, raised) :=
    if String.eqb (take 2 url) "//" then
      let '(netloc, url) := _splitnetloc url in
      let raised :=
        if (contains "[" netloc && negb (contains "]" netloc))
           || (contains "]" netloc && negb (contains "[" netloc))
        then Some {| str_value_error := "Invalid IPv6 URL" |}
        else if contains "[" netloc && contains "]" netloc
        then _check_bracketed_netloc lib netloc
        else None in
      (netloc, url, raised)
    else ("", url, None) in
  match raised with
  | Some e => inl e
  | None =>
      let '(url, fragment) :=
        if contains "#" url then partition "#" url else (url, "") in
      let '(url, query) :=
        if contains "?" url then partition "?" url else (url, "") in
      match _checknetloc lib netloc with
      | Some e => inl e
      | None =>
          inr {| s_scheme := scheme; s_netloc := netloc; s_path := url;
                 s_query := query; s_fragment := fragment |}
      end
  end.

Definition _splitparams (url : string) : string * string :=
  let i :=
    if contains "/" url
    then find_from ";" (default 0 (rfind "/" url)) url
    else find ";" url in
  match i with
  | Some i => (take i url, drop (S i) url)
  | None => (url, "")
  end.

Record ParseResult := {
  p_scheme : string; p_netloc : string; p_path : string;
  p_params : string; p_query : string; p_fragment : string }.

Definition urlparse (lib : Library) (url scheme : string)
  : ValueError + ParseResult :=
  match urlsplit lib url scheme with
  | inl e => inl e
  | inr r =>
      let '(url, params) :=
        if member (s_scheme r) uses_params && contains ";" (s_path r)
        then _splitparams (s_path r)
        else (s_path r, "") in
      inr {| p_scheme := s_scheme r; p_netloc := s_netloc r; p_path := url;
             p_params := params; p_query := s_query r;
             p_fragment := s_fragment r |}
  end.

Definition urlunsplit (scheme netloc url query fragment : string) : string :=
  let url :=
    if truthy netloc
       || (truthy scheme && member scheme uses_netloc
           && negb (String.eqb (take 2 url) "//"))
    then
      let url :=
        if truthy url && negb (String.eqb (take 1 url) "/")
        then "/" +:+ url else url in
      "//" +:+ netloc +:+ url
    else url in
  let url := if truthy scheme then scheme +:+ ":" +:+ url else url in
  let url := if truthy query then url +:+ "?" +:+ query else url in
  let url := if truthy fragment then url +:+ "#" +:+ fragment else url in
  url.

Definition urlunparse (scheme netloc url params query fragment : string)
  : string :=
  let url := if truthy params then url +:+ ";" +:+ params else url in
  urlunsplit scheme netloc url query fragment.

(** [segments[1:-1] = filter(None, segments[1:-1])]. *)
Definition filter_inner (segments : list string) : list string :=
  match segments with
  | first :: (_ :: _) as rest =>
      (first :: List.filter truthy (removelast rest) ++ [List.last rest ""])%list
  | _ => segments
  end.

(** The loop over [segments] that builds [resolved_path]. *)
Definition resolve_segments (segments : list string) : list string :=
  foldl (fun resolved_path seg =>
           if String.eqb seg ".." then removelast resolved_path
           else if String.eqb seg "." then resolved_path
           else (resolved_path ++ [seg])%list)
        [] segments.

(** [urljoin(base, url)]: the URL, or the [ValueError] raised. *)
Definition urljoin (lib : Library) (base url : string) : ValueError + string :=
  if negb (truthy base) then inr url
  else if negb (truthy url) then inr base
  else
    match urlparse lib base "" with
    | inl e => inl e
    | inr b =>
    match urlparse lib url (p_scheme b) with
    | inl e => inl e
    | inr u =>
    inr
    (let scheme := p_scheme u in
    if negb (String.eqb scheme (p_scheme b)) || negb (member scheme uses_relative)
    then url
    else if member scheme uses_netloc && truthy (p_netloc u)
    then urlunparse scheme (p_netloc u) (p_path u) (p_params u)
                    (p_query u) (p_fragment u)
    else
      let netloc :=
        if member scheme uses_netloc then p_netloc b else p_netloc u in
      if negb (truthy (p_path u)) && negb (truthy (p_params u))
      then
        let query := if truthy (p_query u) then p_query u else p_query b in
        urlunparse scheme netloc (p_path b) (p_params b) query (p_fragment u)
      else
        let base_parts := split "/" (p_path b) in
        let base_parts :=
          if String.eqb (List.last base_parts "") "" then base_parts
          else removelast base_parts in
        let segments :=
          if String.eqb (take 1 (p_path u)) "/"
          then split "/" (p_path u)
          else filter_inner (base_parts ++ split "/" (p_path u))%list in
        let resolved_path := resolve_segments segments in
        let resolved_path :=
          if member (List.last segments "") ["."; ".."]
          then (resolved_path ++ [""])%list else resolved_path in
        let path := join "/" resolved_path in
        urlunparse scheme netloc (if truthy path then path else "/")
                   (p_params u) (p_query u) (p_fragment u))
    end
    end.

End urllib_parse.
(** ** [os.path.join] (posixpath) and the static directories *)

Module os_path.
Import PyStr.

(** [join(a, b)] with the separator ["/"]. *)
Definition join (a b : string) : string :=
  if startswith "/" b then b
  else if negb (truthy a) || endswith "/" a then a +:+ b
  else a +:+ "/" +:+ b.

End os_path.

Definition STATIC_DIR : string := "static".
Definition CSS_DIR : string := os_path.join STATIC_DIR "css".
Definition JS_DIR : string := os_path.join STATIC_DIR "js".

(** ** BeautifulSoup: the parsed document and [find_all] *)

Module bs4.
Import PyStr.

(** The parse tree.  A tag holds its attributes as written in the page;
    [attr_value] below gives the value BeautifulSoup keeps for them. *)
Inductive Element :=
| Tag (name : string) (attrs : list (string * string))
      (contents : list Element)
| NavigableString (text : string).

(** The [BeautifulSoup] object: the top-level elements of the page. *)
Definition Soup := list Element.

(** An element followed by its descendants, in document order. *)
Fixpoint self_and_descendants (e : Element) : list Element :=
  e :: match e with
       | Tag _ _ contents => flat_map self_and_descendants contents
       | NavigableString _ => []
       end.

(** [soup.descendants]. *)
Definition descendants (soup : Soup) : list Element :=
  flat_map self_and_descendants soup.

Fixpoint assoc (key : string) (l : list (string * string)) : option string :=
  match l with
  | [] => None
  | (k, v) :: l' => if String.eqb k key then Some v else assoc key l'
  end.

(** [tag.get(key)] for an attribute that is not multi-valued, such as
    [href] and [src]: the string as written, [None] when absent. *)
Definition get (key : string) (e : Element) : option string :=
  match e with
  | Tag _ attrs _ => assoc key attrs
  | NavigableString _ => None
  end.

(** The characters [\S] excludes. *)
Definition is_space (a : ascii) : bool :=
  let n := nat_of_ascii a in
  ((9 <=? n)%nat && (n <=? 13)%nat) || ((28 <=? n)%nat && (n <=? 32)%nat).

(** [nonwhitespace_re.findall(value)]: the maximal runs of [\S]. *)
Fixpoint nonwhitespace (s : string) : list string :=
  match s with
  | "" => []
  | String a s' =>
      if is_space a then nonwhitespace s'
      else match s' with
           | String b _ =>
               if is_space b then String a "" :: nonwhitespace s'
               else match nonwhitespace s' with
                    | w :: ws => String a w :: ws
                    | [] => [String a ""]
                    end
           | "" => [String a ""]
           end
  end.

(** [HTMLTreeBuilder.DEFAULT_CDATA_LIST_ATTRIBUTES]. *)
Definition cdata_list_attribute (tag attr : string) : bool :=
  let on t l := String.eqb tag t && bool_decide (attr ∈ l) in
  bool_decide (attr ∈ ["class"; "accesskey"; "dropzone"])
  || on "a" ["rel"; "rev"] || on "link" ["rel"; "rev"]
  || on "td" ["headers"] || on "th" ["headers"]
  || on "form" ["accept-charset"] || on "object" ["archive"]
  || on "area" ["rel"] || on "icon" ["sizes"]
  || on "iframe" ["sandbox"] || on "output" ["for"].

(** An attribute value as the tree holds it: a string, or the list of
    the whitespace-separated values of a multi-valued attribute. *)
Inductive AttrValue :=
| AStr (s : string)
| AList (l : list string).

Definition attr_value (tag key : string) (attrs : list (string * string))
  : option AttrValue :=
  (fun v => if cdata_list_attribute tag key
            then AList (nonwhitespace v) else AStr v) <$> assoc key attrs.

(** What an attribute is matched against in [find_all]: [True] or a
    string. *)
Inductive MatchAgainst :=
| MTrue
| MStr (s : string).

(** [SoupStrainer._matches] on a string or [None]. *)
Definition matches_str (markup : option string) (m : MatchAgainst) : bool :=
  match m, markup with
  | MTrue, Some _ => true
  | MTrue, None => false
  | MStr s, None => negb (truthy s)
  | MStr s, Some v => String.eqb v s
  end.

(** [SoupStrainer._matches] on an attribute value. *)
Definition _matches (markup : option AttrValue) (m : MatchAgainst) : bool :=
  match markup with
  | Some (AList l) =>
      existsb (fun item => matches_str (Some item) m) l
      || matches_str (Some (join " " l)) m
  | Some (AStr v) => matches_str (Some v) m
  | None => matches_str None m
  end.

(** [SoupStrainer.search_tag] for a tag name and an attribute table. *)
Definition search_tag (name : string) (attrs : list (string * MatchAgainst))
    (e : Element) : bool :=
  match e with
  | Tag n a _ =>
      String.eqb n name
      && List.forallb (fun '(key, m) => _matches (attr_value n key a) m) attrs
  | NavigableString _ => false
  end.

(** [soup.find_all(name, attrs)]. *)
Definition find_all (soup : Soup) (name : string)
    (attrs : list (string * MatchAgainst)) : list Element :=
  List.filter (search_tag name attrs) (descendants soup).

End bs4.

(** [enumerate(l)]. *)
Fixpoint enumerate_from {A} (start : nat) (l : list A) : list (nat * A) :=
  match l with
  | [] => []
  | x :: l' => (start, x) :: enumerate_from (S start) l'
  end.

Definition enumerate {A} (l : list A) : list (nat * A) := enumerate_from 0 l.

(** ** requests: responses and [raise_for_status] *)

Module requests.

Record Response := {
  status_code : Z;
  reason : string;
  url : string;
  content : list Byte.byte;
  text : string }.

(** A [RequestException]; [str_exc e] is [str(e)]. *)
Record RequestException := { str_exc : string }.

(** [response.raise_for_status()]: the [HTTPError] raised, if any. *)
Definition raise_for_status (r : Response) : option RequestException :=
  let http_error_msg :=
    if ((400 <=? status_code r) && (status_code r <? 500))%Z
    then pretty (status_code r) +:+ " Client Error: " +:+ reason r
         +:+ " for url: " +:+ url r
    else if ((500 <=? status_code r) && (status_code r <? 600))%Z
    then pretty (status_code r) +:+ " Server Error: " +:+ reason r
         +:+ " for url: " +:+ url r
    else "" in
  if PyStr.truthy http_error_msg
  then Some {| str_exc := http_error_msg |} else None.

End requests.
(** ** bson: [ObjectId] *)

Module bson.

(** An [ObjectId] is twelve bytes. *)
Definition ObjectId := vec Byte.byte 12.

#[export] Instance byte_eq_dec : EqDecision Byte.byte := Byte.byte_eq_dec.

Definition hexdigit (n : N) : ascii :=
  if (n <? 10)%N then ascii_of_N (48 + n) else ascii_of_N (87 + n).

Definition hexlify_byte (b : Byte.byte) : string :=
  String (hexdigit (Byte.to_N b / 16))
         (String (hexdigit (Byte.to_N b mod 16)) "").

Definition hexlify (l : list Byte.byte) : string :=
  foldr (fun b s => hexlify_byte b +:+ s) "" l.

(** The characters of [hexlify]: the digits and the letters a to f. *)
Definition lower_hex (a : ascii) : bool :=
  PyStr.is_digit a
  || ((97 <=? nat_of_ascii a)%nat && (nat_of_ascii a <=? 102)%nat).

(** [str(oid)]: twenty-four lower-case hexadecimal digits. *)
Definition str (oid : ObjectId) : string := hexlify (vec_to_list oid).

Definition hexval (a : ascii) : option N :=
  let n := N_of_ascii a in
  if ((48 <=? n) && (n <=? 57))%N then Some (n - 48)%N
  else if ((97 <=? n) && (n <=? 102))%N then Some (n - 87)%N
  else if ((65 <=? n) && (n <=? 70))%N then Some (n - 55)%N
  else None.

(** [Py_ISSPACE]: the white space [bytes.fromhex] skips. *)
Definition is_space (a : ascii) : bool :=
  let n := nat_of_ascii a in
  ((9 <=? n)%nat && (n <=? 13)%nat) || (n =? 32)%nat.

(** [bytes.fromhex(s)]: pairs of hexadecimal digits, with any white
    space before a pair and at the end; [None] stands for the
    [ValueError]. *)
Fixpoint fromhex (s : string) : option (list Byte.byte) :=
  match s with
  | "" => Some []
  | String c s' =>
      if is_space c then fromhex s'
      else
        match s' with
        | String c2 s'' =>
            top ← hexval c;
            bot ← hexval c2;
            b ← Byte.of_N (16 * top + bot);
            l ← fromhex s'';
            Some (b :: l)
        | "" => None
        end
  end.



(** [ObjectId(oid)] for a string: the bytes the identifier holds, those
    of [bytes.fromhex] when the string has twenty-four characters;
    [None] stands for [InvalidId].  A well-formed identifier gives twelve
    bytes, a string with white space fewer. *)
Definition ObjectId_of_str (oid : string) : option (list Byte.byte) :=
  if (String.length oid =? 24)%nat then fromhex oid else None.

End bson.
(** ** The world the handlers act on *)

Import requests bson.

(** A document of the [templates] collection. *)
Record Document := {
  d_id : ObjectId;
  d_url : string;
  d_html : string;
  d_css_files : list string;
  d_js_files : list string }.

Inductive Query :=
| ByUrl (url : string)
| ById (oid : list Byte.byte).

(** The effects a handler performs, in the order it performs them. *)
Inductive Event :=
| HttpGet (url : string)
| FileWrite (path text : string)
| FindOne (q : Query)
| InsertOne (d : Document).

Record World := {
  files : gmap string string;
  collection : list Document;
  trace : list Event }.

Definition log (e : Event) (w : World) : World :=
  {| files := files w; collection := collection w;
     trace := trace w ++ [e] |}.

(** The state monad of the handlers. *)
Definition M (A : Type) : Type := World -> A * World.

#[export] Instance M_ret : MRet M := fun A a w => (a, w).
#[export] Instance M_bind : MBind M :=
  fun A B f m w => let '(a, w') := m w in f a w'.

(** [for x in l: acc = body(acc, x)], where the body may raise: the loop
    ends at the first pass that raises, with what it raised. *)
Fixpoint for_each {A B E} (body : B -> A -> M (E + B)) (l : list A) (acc : B)
  : M (E + B) :=
  match l with
  | [] => mret (inr acc)
  | x :: l' =>
      r ← body acc x;
      match r with
      | inl e => mret (inl e)
      | inr acc' => for_each body l' acc'
      end
  end.

(** What a handler answers.  [Unhandled e] is an exception that leaves
    the handler uncaught: the server answers it with status 500. *)
Inductive Result :=
| RedirectResponse (url : string) (status_code : Z)
| HTTPException (status_code : Z) (detail : string)
| TemplateResponse (name html_content : string)
                   (css_files js_files : list string)
| Unhandled (e : urllib_parse.ValueError).

(** The two kinds of asset: the attribute that references it, the
    directory and the file name it is archived under, and the public path
    recorded for it. *)
Record AssetKind := {
  attribute : string;
  directory : string;
  filename : nat -> string;
  public_path : string -> string }.

Definition css_filename (idx : nat) : string := "style_" +:+ pretty idx +:+ ".css".
Definition js_filename (idx : nat) : string := "script_" +:+ pretty idx +:+ ".js".

Definition stylesheet : AssetKind :=
  {| attribute := "href"; directory := CSS_DIR; filename := css_filename;
     public_path := fun css_filename => "/static/css/" +:+ css_filename |}.

Definition script : AssetKind :=
  {| attribute := "src"; directory := JS_DIR; filename := js_filename;
     public_path := fun js_filename => "/static/js/" +:+ js_filename |}.

Section App.

(** The checks of [urlsplit] that other libraries decide. *)
Variable lib : urllib_parse.Library.
(** The network: what [requests.get] does on a URL, the same each time
    the URL is requested. *)
Variable network : string -> RequestException + Response.
(** [BeautifulSoup(content, "html.parser")] and [soup.prettify()]. *)
Variable BeautifulSoup : list Byte.byte -> bs4.Soup.
Variable prettify : bs4.Soup -> string.
(** The identifier [insert_one] gives a document that has none. *)
Variable new_ObjectId : World -> ObjectId.

Definition requests_get (url : string) : M (RequestException + Response) :=
  fun w => (network url, log (HttpGet url) w).

(** [try: r = requests.get(url); r.raise_for_status()]: the response, or
    the [RequestException] the [except] clause receives. *)
Definition fetch (url : string) : M (RequestException + Response) :=
  r ← requests_get url;
  mret match r with
       | inl e => inl e
       | inr response =>
           match raise_for_status response with
           | Some e => inl e
           | None => inr response
           end
       end.

(** [with open(path, "w", encoding="utf-8") as f: f.write(text)]. *)
Definition write_file (path text : string) : M unit :=
  fun w => (tt, {| files := <[path := text]> (files w);
                   collection := collection w;
                   trace := trace w ++ [FileWrite path text] |}).

Definition matches_query (q : Query) (d : Document) : bool :=
  match q with
  | ByUrl url => String.eqb (d_url d) url
  | ById oid => bool_decide (vec_to_list (d_id d) = oid)
  end.

(** [collection.find_one(query)]. *)
Definition find_one (q : Query) : M (option Document) :=
  fun w => (List.find (matches_query q) (collection w), log (FindOne q) w).

(** [collection.insert_one(document)]: the [inserted_id]. *)
Definition insert_one (url html : string) (css_files js_files : list string)
  : M ObjectId :=
  fun w =>
    let d := {| d_id := new_ObjectId w; d_url := url; d_html := html;
                d_css_files := css_files; d_js_files := js_files |} in
    (d_id d, {| files := files w; collection := collection w ++ [d];
                trace := trace w ++ [InsertOne d] |}).

(** The body of the two [for idx, tag in enumerate(...)] loops.  The
    call of [urljoin] stands before the [try]: its [ValueError] leaves
    the loop.  The [RequestException] of the fetch is caught and the
    loop goes on. *)
Definition archive_one (k : AssetKind) (url : string)
    (saved : list string) (item : nat * bs4.Element)
  : M (urllib_parse.ValueError + list string) :=
  let '(idx, tag) := item in
  match bs4.get (attribute k) tag with
  | Some href =>
      if PyStr.truthy href then
        match urllib_parse.urljoin lib url href with
        | inl e => mret (inl e)
        | inr asset_url =>
            r ← fetch asset_url;
            match r with
            | inr asset_response =>
                let name := filename k idx in
                let path := os_path.join (directory k) name in
                _ ← write_file path (text asset_response);
                mret (inr (saved ++ [public_path k name]))
            | inl _ => mret (inr saved)
            end
        end
      else mret (inr saved)
  | None => mret (inr saved)
  end.

Definition archive (k : AssetKind) (url : string)
    (tags : list bs4.Element) : M (urllib_parse.ValueError + list string) :=
  for_each (archive_one k url) (enumerate tags) [].

Definition scrape_website (url : string) : M Result :=
  r ← fetch url;
  match r with
  | inl e =>
      mret (HTTPException 400 ("Failed to fetch the URL: " +:+ str_exc e))
  | inr response =>
      let soup := BeautifulSoup (content response) in
      let html_content := prettify soup in
      css ←
        archive stylesheet url
                (bs4.find_all soup "link" [("rel", bs4.MStr "stylesheet")]);
      match css with
      | inl e => mret (Unhandled e)
      | inr css_files =>
      js ←
        archive script url (bs4.find_all soup "script" [("src", bs4.MTrue)]);
      match js with
      | inl e => mret (Unhandled e)
      | inr js_files =>
      existing ← find_one (ByUrl url);
      match existing with
      | Some _ =>
          mret (HTTPException 400 "This URL has already been scraped.")
      | None =>
          inserted_id ← insert_one url html_content css_files js_files;
          mret (RedirectResponse ("/render/" +:+ str inserted_id) 303)
      end
      end
      end
  end.

Definition render_template (template_id : string) : M Result :=
  match ObjectId_of_str template_id with
  | None => mret (HTTPException 400 "Invalid template ID.")
  | Some oid =>
      document ← find_one (ById oid);
      match document with
      | None => mret (HTTPException 404 "Template not found.")
      | Some d =>
          mret (TemplateResponse "render.html" (d_html d)
                                 (d_css_files d) (d_js_files d))
      end
  end.

(** *** The notions the properties of the handlers are stated with *)

(** What the [try] block around a [requests.get] ends with. *)
Definition outcome (url : string) : RequestException + Response :=
  match network url with
  | inl e => inl e
  | inr response =>
      match raise_for_status response with
      | Some e => inl e
      | None => inr response
      end
  end.

(** The reference a tag carries: its non-empty [href] or [src]. *)
Definition reference (k : AssetKind) (tag : bs4.Element) : option string :=
  href ← bs4.get (attribute k) tag;
  if PyStr.truthy href then Some href else None.

(** The tags of a list that carry a reference, each with the index
    [enumerate] gives it. *)
Definition discovered_in (k : AssetKind) (items : list (nat * bs4.Element))
  : list (nat * string) :=
  omap (fun '(idx, tag) => (fun href => (idx, href)) <$> reference k tag)
       items.

Definition discovered (k : AssetKind) (tags : list bs4.Element) :=
  discovered_in k (enumerate tags).

(** Those of them whose reference [urljoin] resolves and whose fetch
    succeeds, each with the response. *)
Definition fetchable_in (url : string) (refs : list (nat * string))
  : list (nat * Response) :=
  omap (fun '(idx, href) =>
          match urllib_parse.urljoin lib url href with
          | inr asset_url =>
              match outcome asset_url with
              | inr response => Some (idx, response)
              | inl _ => None
              end
          | inl _ => None
          end) refs.

Definition fetchable (k : AssetKind) (url : string)
    (tags : list bs4.Element) :=
  fetchable_in url (discovered k tags).

(** Every reference of the tags resolves: [urljoin] raises on none. *)
Definition resolves (k : AssetKind) (url : string)
    (tags : list bs4.Element) : Prop :=
  forall tag href,
    tag ∈ tags -> reference k tag = Some href ->
    exists asset_url, urllib_parse.urljoin lib url href = inr asset_url.

(** How far a loop gets: the references resolved, each with its index
    and its URL, up to the first on which [urljoin] raises, and what it
    raises there. *)
Fixpoint resolve_refs (url : string) (refs : list (nat * string))
  : list (nat * string) * option urllib_parse.ValueError :=
  match refs with
  | [] => ([], None)
  | (idx, href) :: refs' =>
      match urllib_parse.urljoin lib url href with
      | inl e => ([], Some e)
      | inr asset_url =>
          ((idx, asset_url) :: (resolve_refs url refs').1,
           (resolve_refs url refs').2)
      end
  end.

(** The assets fetched among resolved references. *)
Definition fetched_of (resolved : list (nat * string))
  : list (nat * Response) :=
  omap (fun '(idx, asset_url) =>
          match outcome asset_url with
          | inr response => Some (idx, response)
          | inl _ => None
          end) resolved.

(** The file an asset of index [idx] is written to, and the path
    recorded for it. *)
Definition archived_file (k : AssetKind) (idx : nat) : string :=
  os_path.join (directory k) (filename k idx).
Definition archived_path (k : AssetKind) (idx : nat) : string :=
  public_path k (filename k idx).

Definition write_all (k : AssetKind) (l : list (nat * Response))
    (fs : gmap string string) : gmap string string :=
  foldl (fun fs '(idx, response) =>
           <[archived_file k idx := text response]> fs) fs l.

(** The effects of a loop on resolved references. *)
Definition asset_events (k : AssetKind) (resolved : list (nat * string))
  : list Event :=
  flat_map (fun '(idx, asset_url) =>
              HttpGet asset_url ::
              match outcome asset_url with
              | inr response =>
                  [FileWrite (archived_file k idx) (text response)]
              | inl _ => []
              end) resolved.

(** The world a loop leaves. *)
Definition after_loop (k : AssetKind) (resolved : list (nat * string))
    (w : World) : World :=
  {| files := write_all k (fetched_of resolved) (files w);
     collection := collection w;
     trace := trace w ++ asset_events k resolved |}.

(** The tags the two loops of [scrape_website] run over. *)
Definition link_tags (response : Response) : list bs4.Element :=
  bs4.find_all (BeautifulSoup (content response)) "link"
               [("rel", bs4.MStr "stylesheet")].
Definition script_tags (response : Response) : list bs4.Element :=
  bs4.find_all (BeautifulSoup (content response)) "script"
               [("src", bs4.MTrue)].

(** The world once both loops have run to their end. *)
Definition archived_world (url : string) (response : Response) (w : World)
  : World :=
  after_loop script
    (resolve_refs url (discovered script (script_tags response))).1
    (after_loop stylesheet
       (resolve_refs url (discovered stylesheet (link_tags response))).1
       (log (HttpGet url) w)).

(** The tags that carry a reference.  Were these alone counted, the
    paths recorded would be those of [archive] run on them: the tags
    without a reference dropped before [enumerate] numbers the rest. *)
Definition carriers (k : AssetKind) (tags : list bs4.Element)
  : list bs4.Element :=
  List.filter (fun tag => bool_decide (is_Some (reference k tag))) tags.

End App.

(** ** Reading a trace *)

(** The URLs requested and the files written, in the order of the
    trace. *)
Definition requests_of (evs : list Event) : list string :=
  omap (fun ev => match ev with HttpGet url => Some url | _ => None end) evs.

Definition writes_of (evs : list Event) : list (string * string) :=
  omap (fun ev => match ev with
                  | FileWrite path text => Some (path, text)
                  | _ => None
                  end) evs.

(** No two documents of a collection have the same URL. *)
Definition unique_urls (docs : list Document) : Prop :=
  NoDup (d_url <$> docs).

(** ** The route table (FastAPI over Starlette's [Router]) *)

Module routing.
Import PyStr.

Definition LF : ascii := ascii_of_nat 10.

Inductive Endpoint :=
| openapi | swagger_ui_html | swagger_ui_redirect | redoc_html
| static_files | home | scrape | render.

Inductive Route :=
| APIRoute (path : string) (methods : list string) (endpoint : Endpoint)
| Mount (path : string) (app : Endpoint).

(** The routes of [app], in the order they are registered: the four
    documentation routes of [FastAPI()], the mount of line 36 and the
    three handlers. *)
Definition routes : list Route :=
  [ APIRoute "/openapi.json" ["GET"; "HEAD"] openapi;
    APIRoute "/docs" ["GET"; "HEAD"] swagger_ui_html;
    APIRoute "/docs/oauth2-redirect" ["GET"; "HEAD"] swagger_ui_redirect;
    APIRoute "/redoc" ["GET"; "HEAD"] redoc_html;
    Mount "/static" static_files;
    APIRoute "/" ["GET"] home;
    APIRoute "/scrape" ["POST"] scrape;
    APIRoute "/render" ["GET"] render ].

Inductive Match := NONE | PARTIAL | FULL.

(** The regular expression of a route without parameters is its path
    between [^] and [$]; [$] also matches before a final newline. *)
Definition route_regex_match (path route_path : string) : bool :=
  String.eqb route_path path
  || String.eqb route_path (path +:+ String LF "").

(** The regular expression of a mount: the path, a slash, then any
    characters but a newline up to [$]. *)
Definition mount_regex_match (path route_path : string) : bool :=
  startswith (path +:+ "/") route_path
  && let rest := drop (String.length path + 1) route_path in
     match find LF rest with
     | None => true
     | Some i => (S i =? String.length rest)%nat
     end.

Definition matches (r : Route) (method route_path : string) : Match :=
  match r with
  | APIRoute path methods _ =>
      if route_regex_match path route_path
      then if bool_decide (method ∈ methods) then FULL else PARTIAL
      else NONE
  | Mount path _ =>
      if mount_regex_match path route_path then FULL else NONE
  end.

Definition endpoint_of (r : Route) : Endpoint :=
  match r with APIRoute _ _ e => e | Mount _ e => e end.

Inductive Dispatch :=
| Handle (e : Endpoint)
| MethodNotAllowed
| Redirect (path : string)
| NotFound.

Definition is_full (m : Match) : bool :=
  match m with FULL => true | _ => false end.
Definition is_partial (m : Match) : bool :=
  match m with PARTIAL => true | _ => false end.
Definition is_none (m : Match) : bool :=
  match m with NONE => true | _ => false end.

(** [Router.app]: the first full match; failing that the first partial
    match (answered 405); failing that the redirect to the path with
    the final slash toggled, when a route matches it; failing that the
    default answer, 404. *)
Definition dispatch (method route_path : string) : Dispatch :=
  match List.find (fun r => is_full (matches r method route_path)) routes with
  | Some r => Handle (endpoint_of r)
  | None =>
      match List.find (fun r => is_partial (matches r method route_path))
                      routes with
      | Some _ => MethodNotAllowed
      | None =>
          if negb (String.eqb route_path "/") then
            let redirect_path :=
              if endswith "/" route_path
              then rstrip (Ascii.eqb "/") route_path
              else route_path +:+ "/" in
            if existsb (fun r => negb (is_none (matches r method redirect_path)))
                       routes
            then Redirect redirect_path
            else NotFound
          else NotFound
      end
  end.

(** The request a client sends for a URL of this site: the path before
    the first [?] and the query string after it. *)
Definition request_target (url : string) : string * string :=
  partition "?" url.

End routing.

(** The mount of line 36: the file [StaticFiles(directory=STATIC_DIR)]
    serves for a public path under [/static]. *)
Definition static_file (public : string) : option string :=
  if PyStr.startswith "/static/" public
  then Some (os_path.join STATIC_DIR (PyStr.drop 8 public))
  else None.

(** * Pages to run the handlers on *)

Module Fixture.
Import bs4.

(** The checks of the other libraries, for the hosts of this network:
    the one bracketed host taken as an address is [::1]. *)
Definition lib : urllib_parse.Library :=
  {| urllib_parse._check_bracketed_host := fun hostname =>
       if String.eqb hostname "::1" then None
       else Some {| urllib_parse.str_value_error :=
                      "'" +:+ hostname
                      +:+ "' does not appear to be an IPv4 or IPv6 address" |};
     urllib_parse._checknetloc_non_ascii := fun _ => None |}.

Definition page_url : string := "http://x.test/dir/page.html".

(** The page: three stylesheet links, of which the first has no [href]
    and the third is answered 404, and three scripts, of which the first
    has an empty [src] and the second none. *)
Definition page_html : string :=
  "<link rel='stylesheet'>" +:+
  "<link rel='stylesheet' href='a/b.css'>" +:+
  "<link rel='stylesheet' href='/missing.css'>" +:+
  "<script src=''></script>" +:+
  "<script>inline()</script>" +:+
  "<script src='app.js'></script>".

Definition page_soup : Soup :=
  [ Tag "link" [("rel", "stylesheet")] [];
    Tag "link" [("rel", "stylesheet"); ("href", "a/b.css")] [];
    Tag "link" [("rel", "stylesheet"); ("href", "/missing.css")] [];
    Tag "script" [("src", "")] [];
    Tag "script" [] [NavigableString "inline()"];
    Tag "script" [("src", "app.js")] [] ].

(** A second page, whose first stylesheet link has a reference on which
    [urljoin] raises: a host that opens a bracket and closes none. *)
Definition bad_url : string := "http://x.test/bad.html".

Definition bad_html : string :=
  "<link rel='stylesheet' href='//['>" +:+
  "<link rel='stylesheet' href='a/b.css'>".

Definition bad_soup : Soup :=
  [ Tag "link" [("rel", "stylesheet"); ("href", "//[")] [];
    Tag "link" [("rel", "stylesheet"); ("href", "a/b.css")] [] ].

Definition ok (url : string) (body : string) : Response :=
  {| status_code := 200; reason := "OK"; url := url;
     content := list_byte_of_string body; text := body |}.

Definition page_response : Response := ok page_url page_html.
Definition bad_response : Response := ok bad_url bad_html.

Definition network (url : string) : RequestException + Response :=
  if String.eqb url page_url then inr page_response
  else if String.eqb url bad_url then inr bad_response
  else if String.eqb url "http://x.test/dir/a/b.css"
  then inr (ok url "body{margin:0}")
  else if String.eqb url "http://x.test/a/b.css"
  then inr (ok url "p{margin:0}")
  else if String.eqb url "http://x.test/dir/app.js"
  then inr (ok url "run()")
  else if String.eqb url "http://x.test/missing.css"
  then inr {| status_code := 404; reason := "Not Found"; url := url;
              content := []; text := "" |}
  else inl {| str_exc := "Connection refused" |}.

(** The parser on the two pages of this network. *)
Definition parser (content : list Byte.byte) : Soup :=
  if String.eqb (string_of_list_byte content) page_html then page_soup
  else if String.eqb (string_of_list_byte content) bad_html then bad_soup
  else [].

(** A stand-in for [prettify]: one tag or string per line. *)
Fixpoint serialize (e : Element) : string :=
  match e with
  | Tag name attrs contents =>
      "<" +:+ name
      +:+ String.concat ""
            (List.map (fun '(key, v) => " " +:+ key +:+ "='" +:+ v +:+ "'")
                      attrs)
      +:+ ">" +:+ String routing.LF ""
      +:+ String.concat "" (List.map serialize contents)
      +:+ "</" +:+ name +:+ ">" +:+ String routing.LF ""
  | NavigableString text => text +:+ String routing.LF ""
  end.

Definition prettify (soup : Soup) : string :=
  String.concat "" (List.map serialize soup).

(** The identifier handed out: the number of stored documents, in the
    last byte. *)
Definition new_ObjectId (w : World) : ObjectId :=
  let b := default Byte.x00 (Byte.of_nat (length (collection w))) in
  [# Byte.x65; Byte.x4f; Byte.x1a; Byte.x2b; Byte.x00; Byte.x00;
     Byte.x00; Byte.x00; Byte.x00; Byte.x00; Byte.x00; b].

Definition scrape_website :=
  scrape_website lib network parser prettify new_ObjectId.

(** A fresh installation. *)
Definition fresh : World := {| files := ∅; collection := []; trace := [] |}.

(** The document a scrape of the page stores. *)
Definition stored : Document :=
  {| d_id := new_ObjectId fresh; d_url := page_url;
     d_html := prettify page_soup;
     d_css_files := ["/static/css/style_1.css"];
     d_js_files := ["/static/js/script_1.js"] |}.

(** The world after the page has been scraped once and a stylesheet of
    another page has taken the place of [style_1.css] since. *)
Definition scraped : World :=
  {| files := {[ "static/css/style_1.css" := "h1{color:red}";
                 "static/js/script_1.js" := "run()" ]};
     collection := [stored]; trace := [] |}.



End Fixture.

(** * Properties *)

(** ** File names *)

Section Names.

Lemma list_ascii_of_string_app s t :
  list_ascii_of_string (s +:+ t)
  = list_ascii_of_string s ++ list_ascii_of_string t.
Proof. induction s as [|a s IH]; simpl; [done | by rewrite IH]. Qed.

Lemma string_app_inj_r s1 s2 t : s1 +:+ t = s2 +:+ t -> s1 = s2.
Proof.
  intros H%(f_equal list_ascii_of_string).
  rewrite !list_ascii_of_string_app in H. apply app_inv_tail in H.
  by rewrite <- (string_of_list_ascii_of_string s1), H,
    string_of_list_ascii_of_string.
Qed.

Lemma archived_file_stylesheet idx :
  archived_file stylesheet idx = "static/css/style_" +:+ pretty idx +:+ ".css".
Proof. reflexivity. Qed.

Lemma archived_file_script idx :
  archived_file script idx = "static/js/script_" +:+ pretty idx +:+ ".js".
Proof. reflexivity. Qed.

Lemma archived_path_stylesheet idx :
  archived_path stylesheet idx = "/static/css/style_" +:+ pretty idx +:+ ".css".
Proof. reflexivity. Qed.

Lemma archived_path_script idx :
  archived_path script idx = "/static/js/script_" +:+ pretty idx +:+ ".js".
Proof. reflexivity. Qed.

#[local] Instance archived_file_stylesheet_inj :
  Inj (=) (=) (archived_file stylesheet).
Proof.
  intros i j H. rewrite !archived_file_stylesheet in H.
  apply (inj (String.append _)) in H. apply string_app_inj_r in H.
  by apply (inj pretty) in H.
Qed.

#[local] Instance archived_file_script_inj :
  Inj (=) (=) (archived_file script).
Proof.
  intros i j H. rewrite !archived_file_script in H.
  apply (inj (String.append _)) in H. apply string_app_inj_r in H.
  by apply (inj pretty) in H.
Qed.

(** The two loops write to different files. *)
Lemma archived_file_disjoint i j :
  archived_file script i <> archived_file stylesheet j.
Proof. rewrite archived_file_stylesheet, archived_file_script. discriminate. Qed.

(** The path recorded for an asset is the one its file is served
    under. *)
Lemma static_file_stylesheet idx :
  static_file (archived_path stylesheet idx)
  = Some (archived_file stylesheet idx).
Proof. reflexivity. Qed.

Lemma static_file_script idx :
  static_file (archived_path script idx) = Some (archived_file script idx).
Proof. reflexivity. Qed.

(** [raise_for_status] raises on the statuses 400 to 599 and on no
    other. *)
Lemma truthy_app_r s t : PyStr.truthy t = true -> PyStr.truthy (s +:+ t) = true.
Proof. destruct s; simpl; [done | done]. Qed.

Lemma raise_for_status_is_Some response :
  is_Some (raise_for_status response)
  <-> (400 <= status_code response < 600)%Z.
Proof.
  unfold raise_for_status.
  destruct (_ && _) eqn:E4.
  - rewrite !truthy_app_r by done.
    apply andb_true_iff in E4 as [?%Z.leb_le ?%Z.ltb_lt].
    split; [lia | by eexists].
  - destruct ((500 <=? _)%Z && _) eqn:E5.
    + rewrite !truthy_app_r by done.
      apply andb_true_iff in E5 as [?%Z.leb_le ?%Z.ltb_lt].
      split; [lia | by eexists].
    + simpl. split; [by intros [? [=]]|]. intros [H4 H6].
      apply andb_false_iff in E4 as [?%Z.leb_gt | ?%Z.ltb_ge]; [lia|].
      apply andb_false_iff in E5 as [?%Z.leb_gt | ?%Z.ltb_ge]; lia.
Qed.

End Names.

(** ** Identifiers *)

Section Identifiers.
Import PyStr.

Lemma hexlify_byte_lower_hex b : forallb lower_hex (hexlify_byte b) = true.
Proof. destruct b; reflexivity. Qed.

Lemma forallb_app p s t :
  forallb p (s +:+ t) = forallb p s && forallb p t.
Proof. induction s as [|a s IH]; simpl; [done|]. by rewrite IH, andb_assoc. Qed.

Lemma hexlify_lower_hex l : forallb lower_hex (hexlify l) = true.
Proof.
  induction l as [|b l IH]; [done|].
  change (hexlify (b :: l)) with (hexlify_byte b +:+ hexlify l).
  by rewrite forallb_app, hexlify_byte_lower_hex, IH.
Qed.

Lemma forallb_find p c s :
  forallb p s = true -> p c = false -> find c s = None.
Proof.
  intros Hs Hc. induction s as [|a s IH]; simpl in *; [done|].
  apply andb_true_iff in Hs as [Ha Hs].
  destruct (Ascii.eqb_spec a c) as [->|_]; [congruence|].
  by rewrite IH.
Qed.

Lemma forallb_last_char p s a :
  forallb p s = true -> last_char s = Some a -> p a = true.
Proof.
  induction s as [|b s IH]; simpl; [done|].
  intros [Hb Hs]%andb_true_iff. destruct s; [by intros [= <-]|]. by apply IH.
Qed.

Lemma last_char_app s t : t <> "" -> last_char (s +:+ t) = last_char t.
Proof.
  intros Ht. induction s as [|a s IH]; simpl; [done|].
  rewrite <- IH. destruct (s +:+ t) eqn:E; [|done].
  destruct s; simpl in E; [done | discriminate].
Qed.

(** [str(oid)] is not empty and made of digits and the letters a to f. *)
Lemma str_lower_hex (oid : ObjectId) : forallb lower_hex (str oid) = true.
Proof. apply hexlify_lower_hex. Qed.

Lemma str_nonempty (oid : ObjectId) : str oid <> "".
Proof.
  unfold str. inv_vec oid; intros b oid. simpl.
  unfold hexlify_byte. discriminate.
Qed.




Lemma lower_char_hexval a : hexval (lower_char a) = hexval a.
Proof. destruct a as [[] [] [] [] [] [] [] []]; reflexivity. Qed.

Lemma lower_char_is_space a : bson.is_space (lower_char a) = bson.is_space a.
Proof. destruct a as [[] [] [] [] [] [] [] []]; reflexivity. Qed.

Lemma length_lower s : String.length (lower s) = String.length s.
Proof. induction s as [|a s IH]; simpl; [done | by rewrite IH]. Qed.

(** [fromhex] goes down a string by one character or by two: what holds
    of the empty string, of a string after a character of white space and
    of a string after two characters holds of every string. *)
Lemma string_ind2 (P : string -> Prop) :
  P "" ->
  (forall c, P (String c "")) ->
  (forall c1 c2 s, P s -> P (String c2 s) -> P (String c1 (String c2 s))) ->
  forall s, P s.
Proof.
  intros H0 H1 H2 s.
  assert (P s /\ forall c, P (String c s)) as [H _]; [|done].
  induction s as [|c s [IH1 IH2]]; [by split|].
  split; [apply IH2|]. intros c'. by apply H2.
Qed.

Lemma fromhex_cons_space c s :
  bson.is_space c = true -> fromhex (String c s) = fromhex s.
Proof. intros H. simpl. by rewrite H. Qed.

Lemma fromhex_cons_pair c1 c2 s :
  bson.is_space c1 = false ->
  fromhex (String c1 (String c2 s))
  = top ← hexval c1; bot ← hexval c2; b ← Byte.of_N (16 * top + bot);
    l ← fromhex s; Some (b :: l).
Proof. intros H. cbn [fromhex]. by rewrite H. Qed.

Lemma fromhex_lower s : fromhex (lower s) = fromhex s.
Proof.
  induction s as [|c|c1 c2 s IH1 IH2] using string_ind2.
  - done.
  - cbn [lower fromhex]. by rewrite lower_char_is_space.
  - change (lower (String c1 (String c2 s)))
      with (String (lower_char c1) (lower (String c2 s))).
    destruct (bson.is_space c1) eqn:Hs.
    + rewrite !fromhex_cons_space by (by rewrite ?lower_char_is_space). done.
    + change (lower (String c2 s)) with (String (lower_char c2) (lower s)).
      rewrite !fromhex_cons_pair by (by rewrite ?lower_char_is_space).
      by rewrite !lower_char_hexval, IH1.
Qed.




(** [ObjectId] reads the text of an identifier back. *)
Lemma length_hexlify l : String.length (hexlify l) = 2 * length l.
Proof.
  induction l as [|b l IH]; [done|].
  change (hexlify (b :: l)) with (hexlify_byte b +:+ hexlify l).
  change (String.length (hexlify_byte b +:+ hexlify l))
    with (S (S (String.length (hexlify l)))).
  rewrite IH. simpl. lia.
Qed.

Lemma fromhex_hexlify_byte b s :
  fromhex (hexlify_byte b +:+ s) = fromhex s ≫= fun l => Some (b :: l).
Proof. destruct b; reflexivity. Qed.

Lemma fromhex_hexlify l : fromhex (hexlify l) = Some l.
Proof.
  induction l as [|b l IH]; [done|].
  change (hexlify (b :: l)) with (hexlify_byte b +:+ hexlify l).
  by rewrite fromhex_hexlify_byte, IH.
Qed.

Lemma ObjectId_of_str_round_trip (oid : ObjectId) :
  ObjectId_of_str (str oid) = Some (vec_to_list oid).
Proof.
  unfold ObjectId_of_str, str.
  rewrite length_hexlify, length_vec_to_list. cbn [Nat.mul Nat.add Nat.eqb].
  apply fromhex_hexlify.
Qed.








End Identifiers.

(** ** Routes *)

Section Routes.
Import PyStr routing.

(** No route serves a path below [/render/], whatever the method. *)
Lemma matches_below_render method s r :
  r ∈ routes -> matches r method ("/render/" +:+ s) = NONE.
Proof.
  unfold routes. rewrite !elem_of_cons, elem_of_nil.
  intros H. repeat destruct H as [-> | H]; try reflexivity. done.
Qed.

Lemma dispatch_below_render method s :
  endswith "/" ("/render/" +:+ s) = false ->
  dispatch method ("/render/" +:+ s) = NotFound.
Proof.
  intros Hs. unfold dispatch. rewrite Hs. reflexivity.
Qed.

Lemma endswith_slash_str (oid : ObjectId) :
  endswith "/" ("/render/" +:+ str oid) = false.
Proof.
  unfold endswith. rewrite last_char_app by apply str_nonempty.
  destruct (last_char (str oid)) as [a|] eqn:E; [|done].
  apply (forallb_last_char _ _ _ (str_lower_hex oid)) in E.
  destruct (Ascii.eqb_spec a "/") as [->|]; [done | done].
Qed.

Lemma request_target_str (oid : ObjectId) :
  request_target ("/render/" +:+ str oid) = ("/render/" +:+ str oid, "").
Proof.
  unfold request_target, partition.
  change (find "?" ("/render/" +:+ str oid))
    with (S <$> (S <$> (S <$> (S <$> (S <$> (S <$> (S <$> (S <$>
            find "?" (str oid))))))))).
  by rewrite (forallb_find lower_hex "?" _ (str_lower_hex oid)).
Qed.

(** Only [GET /render] reaches the handler [render_template]. *)
Lemma dispatch_render method route_path :
  dispatch method route_path = Handle render ->
  method = "GET" /\
  (route_path = "/render" \/ route_path = "/render" +:+ String LF "").
Proof.
  unfold dispatch. destruct (List.find _ routes) as [r|] eqn:E.
  - intros [= Hr]. apply find_some in E as [Hin Hm].
    unfold routes in Hin. simpl in Hin.
    repeat destruct Hin as [<- | Hin]; try discriminate; [|done].
    unfold matches, route_regex_match in Hm.
    destruct (_ || _) eqn:Hp; [|done].
    destruct (bool_decide _) eqn:Hmeth; [|done].
    apply bool_decide_eq_true_1, list_elem_of_singleton in Hmeth.
    apply orb_true_iff in Hp as [Hp|Hp]; apply String.eqb_eq in Hp; auto.
  - repeat case_match; discriminate.
Qed.

End Routes.

(** ** [render_template] *)

Section Render.
Import PyStr.

Lemma render_template_run template_id w :
  (render_template template_id w).1
  = match ObjectId_of_str template_id with
    | None => HTTPException 400 "Invalid template ID."
    | Some oid =>
        match List.find (matches_query (ById oid)) (collection w) with
        | None => HTTPException 404 "Template not found."
        | Some d =>
            TemplateResponse "render.html" (d_html d)
                             (d_css_files d) (d_js_files d)
        end
    end.
Proof.
  unfold render_template. destruct (ObjectId_of_str template_id); [|done].
  unfold mbind, M_bind, find_one. by destruct (List.find _ (collection w)).
Qed.



Lemma render_template_stored d w :
  d ∈ collection w ->
  (forall d', d' ∈ collection w -> d_id d' = d_id d -> d' = d) ->
  (render_template (str (d_id d)) w).1
  = TemplateResponse "render.html" (d_html d) (d_css_files d) (d_js_files d).
Proof.
  intros Hin Huniq.
  rewrite render_template_run, ObjectId_of_str_round_trip.
  destruct (List.find _ (collection w)) as [d'|] eqn:Hfind.
  - apply find_some in Hfind as [Hin' Hm]. simpl in Hm.
    apply bool_decide_eq_true_1, vec_to_list_inj2 in Hm.
    apply list_elem_of_In in Hin'. by rewrite (Huniq d' Hin' Hm).
  - apply find_none with (x := d) in Hfind; [|by apply list_elem_of_In].
    simpl in Hfind. by apply bool_decide_eq_false_1 in Hfind.
Qed.


(** X5. The text of an identifier is twenty-four characters that
    [ObjectId] reads back as the bytes of the identifier:
    [ObjectId(str(oid)) == oid].  Hence two identifiers with the same
    text are the same. *)
Theorem ObjectId_of_str_str (oid : ObjectId) :
  String.length (str oid) = 24 /\
  ObjectId_of_str (str oid) = Some (vec_to_list oid) /\
  forall oid' : ObjectId, str oid' = str oid -> oid' = oid.
Proof.
  split; [|split; [apply ObjectId_of_str_round_trip|]].
  - unfold str. by rewrite length_hexlify, length_vec_to_list.
  - intros oid' Heq. pose proof (ObjectId_of_str_round_trip oid') as H'.
    rewrite Heq, ObjectId_of_str_round_trip in H'.
    injection H' as H'. by apply vec_to_list_inj2.
Qed.

(** X6. [render_template] on the text of the identifier of a stored
    document answers with the template of that document: its [html], its
    [css_files] and its [js_files], when no other document has the
    identifier. *)
Theorem render_answers_the_stored_document d w :
  d ∈ collection w ->
  (forall d', d' ∈ collection w -> d_id d' = d_id d -> d' = d) ->
  (render_template (str (d_id d)) w).1
  = TemplateResponse "render.html" (d_html d) (d_css_files d) (d_js_files d).
Proof. apply render_template_stored. Qed.

(** X12. [render_template] only reads: whatever the identifier, it
    leaves the files and the collection as they were and writes no file,
    so asking again gets the same answer. *)
Theorem render_template_only_reads template_id w :
  files (render_template template_id w).2 = files w /\
  collection (render_template template_id w).2 = collection w /\
  writes_of (trace (render_template template_id w).2) = writes_of (trace w) /\
  (render_template template_id (render_template template_id w).2).1
  = (render_template template_id w).1.
Proof.
  unfold render_template.
  destruct (ObjectId_of_str template_id) as [oid|]; [|done].
  unfold mbind, M_bind, find_one. cbn [log files collection trace].
  destruct (List.find _ (collection w)) as [d|] eqn:Hfind;
    cbn [mret M_ret fst snd log files collection trace];
    rewrite ?Hfind; unfold writes_of; rewrite ?omap_app, ?app_nil_r; done.
Qed.

(** X14. The case of the letters of an identifier does not matter:
    [render_template] answers on an identifier as on the same identifier
    in lower case. *)
Theorem render_template_ignores_case template_id w :
  render_template (PyStr.lower template_id) w = render_template template_id w.
Proof.
  unfold render_template, ObjectId_of_str.
  by rewrite length_lower, fromhex_lower.
Qed.

End Render.

Section Properties.

Variable lib : urllib_parse.Library.
Variable network : string -> RequestException + Response.
Variable BeautifulSoup : list Byte.byte -> bs4.Soup.
Variable prettify : bs4.Soup -> string.
Variable new_ObjectId : World -> ObjectId.

Abbreviation urljoin := (urllib_parse.urljoin lib).
Abbreviation outcome := (outcome network).
Abbreviation fetch := (fetch network).
Abbreviation archive_one := (archive_one lib network).
Abbreviation archive := (archive lib network).
Abbreviation fetchable_in := (fetchable_in lib network).
Abbreviation fetchable := (fetchable lib network).
Abbreviation resolves := (resolves lib).
Abbreviation resolve_refs := (resolve_refs lib).
Abbreviation fetched_of := (fetched_of network).
Abbreviation asset_events := (asset_events network).
Abbreviation after_loop := (after_loop network).
Abbreviation link_tags := (link_tags BeautifulSoup).
Abbreviation script_tags := (script_tags BeautifulSoup).
Abbreviation archived_world := (archived_world lib network BeautifulSoup).
Abbreviation scrape_website :=
  (scrape_website lib network BeautifulSoup prettify new_ObjectId).

Lemma fetch_run url w : fetch url w = (outcome url, log (HttpGet url) w).
Proof. reflexivity. Qed.

(** One pass of the loop body, by cases on the tag. *)
Lemma reference_Some k tag href :
  reference k tag = Some href <->
  bs4.get (attribute k) tag = Some href /\ PyStr.truthy href = true.
Proof.
  unfold reference. destruct (bs4.get (attribute k) tag) as [h|]; simpl.
  - destruct (PyStr.truthy h) eqn:E; split.
    + intros [= ->]. done.
    + by intros [[= ->] _].
    + done.
    + intros [[= ->] ?]. congruence.
  - split; [done | by intros [? _]].
Qed.

Lemma archive_one_skip k url saved idx tag w :
  reference k tag = None ->
  archive_one k url saved (idx, tag) w = (inr saved, w).
Proof.
  unfold reference, archive_one. intros H.
  destruct (bs4.get (attribute k) tag) as [href|]; [|done].
  simpl in H. by destruct (PyStr.truthy href).
Qed.

Lemma archive_one_raises k url saved idx tag href e w :
  reference k tag = Some href ->
  urljoin url href = inl e ->
  archive_one k url saved (idx, tag) w = (inl e, w).
Proof.
  intros [Hget Ht]%reference_Some Hu. unfold archive_one.
  by rewrite Hget, Ht, Hu.
Qed.

Lemma archive_one_failed k url saved idx tag href asset_url e w :
  reference k tag = Some href ->
  urljoin url href = inr asset_url ->
  outcome asset_url = inl e ->
  archive_one k url saved (idx, tag) w = (inr saved, log (HttpGet asset_url) w).
Proof.
  intros [Hget Ht]%reference_Some Hu Ho. unfold archive_one.
  rewrite Hget, Ht, Hu. unfold mbind, M_bind. rewrite fetch_run, Ho. done.
Qed.

Lemma archive_one_saved k url saved idx tag href asset_url response w :
  reference k tag = Some href ->
  urljoin url href = inr asset_url ->
  outcome asset_url = inr response ->
  archive_one k url saved (idx, tag) w
  = (inr (saved ++ [archived_path k idx]),
     {| files := <[archived_file k idx := text response]> (files w);
        collection := collection w;
        trace := trace w ++ [HttpGet asset_url;
                             FileWrite (archived_file k idx) (text response)] |}).
Proof.
  intros [Hget Ht]%reference_Some Hu Ho. unfold archive_one.
  rewrite Hget, Ht, Hu. unfold mbind, M_bind. rewrite fetch_run, Ho.
  simpl. by rewrite <- app_assoc.
Qed.

Lemma for_each_cons {A B E} (body : B -> A -> M (E + B)) x l acc w :
  for_each body (x :: l) acc w
  = match (body acc x w).1 with
    | inl e => (inl e, (body acc x w).2)
    | inr acc' => for_each body l acc' (body acc x w).2
    end.
Proof.
  simpl. unfold mbind, M_bind. by destruct (body acc x w) as [[e|acc'] w'].
Qed.

(** The loop: what it returns or raises, and the world it leaves. *)
Lemma for_each_archive_one k url items saved w :
  for_each (archive_one k url) items saved w
  = (match (resolve_refs url (discovered_in k items)).2 with
     | Some e => inl e
     | None =>
         inr (saved ++ ((archived_path k ∘ fst)
                          <$> fetched_of
                                (resolve_refs url (discovered_in k items)).1))
     end,
     after_loop k (resolve_refs url (discovered_in k items)).1 w).
Proof.
  revert saved w. induction items as [|[idx tag] items IH]; intros saved w.
  - simpl. unfold after_loop. simpl. rewrite !app_nil_r. by destruct w.
  - rewrite for_each_cons.
    destruct (reference k tag) as [href|] eqn:Href.
    + unfold discovered_in. cbn [omap list_omap]. rewrite Href.
      cbn [fmap option_fmap option_map resolve_refs].
      fold (discovered_in k items).
      destruct (urljoin url href) as [e|asset_url] eqn:Hu.
      * rewrite (archive_one_raises _ _ _ _ _ _ _ _ Href Hu).
        cbn [fst snd]. unfold after_loop. simpl. rewrite app_nil_r.
        by destruct w.
      * destruct (outcome asset_url) as [e|response] eqn:Ho.
        -- rewrite (archive_one_failed _ _ _ _ _ _ _ _ _ Href Hu Ho).
           cbn [fst snd]. rewrite IH. f_equal.
           ++ destruct (resolve_refs url (discovered_in k items)).2; [done|].
              unfold fetched_of. cbn [omap list_omap]. by rewrite Ho.
           ++ unfold after_loop, fetched_of, asset_events.
              cbn [omap list_omap flat_map log files collection trace].
              rewrite Ho. by rewrite <- app_assoc.
        -- rewrite (archive_one_saved _ _ _ _ _ _ _ _ _ Href Hu Ho).
           cbn [fst snd]. rewrite IH. f_equal.
           ++ destruct (resolve_refs url (discovered_in k items)).2; [done|].
              unfold fetched_of. cbn [omap list_omap]. rewrite Ho.
              cbn. by rewrite <- app_assoc.
           ++ unfold after_loop, fetched_of, asset_events.
              cbn [omap list_omap flat_map files collection trace].
              rewrite Ho. cbn. by rewrite <- app_assoc.
    + rewrite (archive_one_skip _ _ _ _ _ _ Href). cbn [fst snd].
      rewrite IH. unfold discovered_in. cbn [omap list_omap].
      by rewrite Href.
Qed.

Lemma archive_run k url tags w :
  archive k url tags w
  = (match (resolve_refs url (discovered k tags)).2 with
     | Some e => inl e
     | None =>
         inr ((archived_path k ∘ fst)
                <$> fetched_of (resolve_refs url (discovered k tags)).1)
     end,
     after_loop k (resolve_refs url (discovered k tags)).1 w).
Proof. unfold archive. by rewrite for_each_archive_one. Qed.

(** [scrape_website] after a page fetch that succeeds. *)
Lemma scrape_website_fetched url response w :
  outcome url = inr response ->
  scrape_website url w
  = let css := resolve_refs url (discovered stylesheet (link_tags response)) in
    let js := resolve_refs url (discovered script (script_tags response)) in
    let w1 := after_loop stylesheet css.1 (log (HttpGet url) w) in
    match css.2 with
    | Some e => (Unhandled e, w1)
    | None =>
        let w2 := after_loop script js.1 w1 in
        match js.2 with
        | Some e => (Unhandled e, w2)
        | None =>
            match List.find (matches_query (ByUrl url)) (collection w) with
            | Some _ =>
                (HTTPException 400 "This URL has already been scraped.",
                 log (FindOne (ByUrl url)) w2)
            | None =>
                let d := {| d_id := new_ObjectId (log (FindOne (ByUrl url)) w2);
                            d_url := url;
                            d_html := prettify (BeautifulSoup (content response));
                            d_css_files :=
                              (archived_path stylesheet ∘ fst)
                                <$> fetched_of css.1;
                            d_js_files :=
                              (archived_path script ∘ fst)
                                <$> fetched_of js.1 |} in
                (RedirectResponse ("/render/" +:+ str (d_id d)) 303,
                 {| files := files w2; collection := collection w ++ [d];
                    trace := trace w2 ++ [FindOne (ByUrl url); InsertOne d] |})
            end
        end
    end.
Proof.
  intros Ho. unfold scrape_website, mbind, M_bind.
  rewrite fetch_run, Ho, archive_run.
  fold (link_tags response). fold (script_tags response). cbn zeta.
  destruct (resolve_refs url (discovered stylesheet (link_tags response))).2;
    [done|].
  rewrite archive_run.
  destruct (resolve_refs url (discovered script (script_tags response))).2;
    [done|].
  unfold find_one, insert_one, log. cbn [files collection trace after_loop].
  destruct (List.find _ (collection w)); cbn [mret M_ret files collection trace];
    repeat (rewrite <- app_assoc; cbn [app]); reflexivity.
Qed.

Lemma scrape_website_failed url e w :
  outcome url = inl e ->
  scrape_website url w
  = (HTTPException 400 ("Failed to fetch the URL: " +:+ str_exc e),
     log (HttpGet url) w).
Proof.
  intros Ho. unfold scrape_website, mbind, M_bind. by rewrite fetch_run, Ho.
Qed.

(** *** Indices *)

Lemma elem_of_enumerate_from {A} (l : list A) start i x :
  (i, x) ∈ enumerate_from start l <->
  exists j, i = start + j /\ l !! j = Some x.
Proof.
  revert start. induction l as [|y l IH]; intros start; simpl.
  - split; [by intros ?%elem_of_nil | by intros (j & _ & ?)].
  - rewrite elem_of_cons, IH. split.
    + intros [[= -> ->] | (j & -> & Hj)].
      * exists 0. split; [lia | done].
      * exists (S j). split; [lia | done].
    + intros ([|j] & -> & Hj); simpl in Hj.
      * left. injection Hj as ->. f_equal. lia.
      * right. exists j. split; [lia | done].
Qed.

Lemma elem_of_enumerate {A} (l : list A) i x :
  (i, x) ∈ enumerate l <-> l !! i = Some x.
Proof.
  unfold enumerate. rewrite elem_of_enumerate_from. split.
  - by intros (j & -> & Hj).
  - intros H. by exists i.
Qed.

Lemma enumerate_from_fst {A} (l : list A) start :
  (enumerate_from start l).*1 = seq start (length l).
Proof.
  revert start. induction l as [|y l IH]; intros start; simpl; [done|].
  by rewrite IH.
Qed.

Lemma discovered_in_fst_sublist k items :
  (discovered_in k items).*1 `sublist_of` items.*1.
Proof.
  induction items as [|[idx tag] items IH]; simpl; [done|].
  unfold discovered_in in *. simpl.
  destruct (reference k tag); simpl.
  - by apply sublist_skip.
  - by apply sublist_cons.
Qed.

(** A tag is discovered under the index of its position among the tags
    the loop runs over. *)
Lemma elem_of_discovered k tags idx href :
  (idx, href) ∈ discovered k tags <->
  exists tag, tags !! idx = Some tag /\ reference k tag = Some href.
Proof.
  unfold discovered, discovered_in. rewrite list_elem_of_omap. split.
  - intros ([i tag] & Hin%elem_of_enumerate & Hf).
    destruct (reference k tag) as [h|] eqn:E; simpl in Hf; [|done].
    injection Hf as -> ->. eauto.
  - intros (tag & Hl & Hr). exists (idx, tag).
    split; [by apply elem_of_enumerate | by rewrite Hr].
Qed.


(** *** Resolution *)

Lemma resolve_refs_None url refs :
  (resolve_refs url refs).2 = None <->
  forall idx href,
    (idx, href) ∈ refs -> exists asset_url, urljoin url href = inr asset_url.
Proof.
  induction refs as [|[i h] refs IH]; cbn [resolve_refs].
  - split; [|done]. by intros _ idx href ?%elem_of_nil.
  - destruct (urljoin url h) as [e|u] eqn:Hu; cbn [snd].
    + split; [done|]. intros H. destruct (H i h) as [u' Hu']; [left|].
      congruence.
    + rewrite IH. split.
      * intros H idx href [[= -> ->] | Hin]%elem_of_cons; [eauto|].
        by apply (H idx).
      * intros H idx href Hin. apply (H idx). by right.
Qed.

Lemma resolves_None k url tags :
  resolves k url tags <-> (resolve_refs url (discovered k tags)).2 = None.
Proof.
  rewrite resolve_refs_None. unfold resolves. split.
  - intros H idx href (tag & Hl & Hr)%elem_of_discovered.
    apply (H tag); [|done]. by eapply list_elem_of_lookup_2.
  - intros H tag href [idx Hl]%list_elem_of_lookup_1 Hr.
    apply (H idx). apply elem_of_discovered. eauto.
Qed.

Lemma fetched_of_resolved url refs :
  (resolve_refs url refs).2 = None ->
  fetched_of (resolve_refs url refs).1 = fetchable_in url refs.
Proof.
  induction refs as [|[i h] refs IH]; [done|].
  unfold fetchable_in, fetched_of in *. cbn [resolve_refs omap list_omap].
  destruct (urljoin url h) as [e|u]; [done|]. cbn [fst snd omap list_omap].
  intros H. rewrite (IH H). done.
Qed.


Lemma resolve_refs_fst_sublist url refs :
  (resolve_refs url refs).1.*1 `sublist_of` refs.*1.
Proof.
  induction refs as [|[i h] refs IH]; [done|]. cbn [resolve_refs].
  destruct (urljoin url h); cbn.
  - apply sublist_cons, sublist_nil_l.
  - by apply sublist_skip.
Qed.

Lemma fetched_of_fst_sublist l : (fetched_of l).*1 `sublist_of` l.*1.
Proof.
  induction l as [|[i u] l IH]; [done|].
  unfold fetched_of in *. cbn [omap list_omap].
  destruct (outcome u); cbn.
  - by apply sublist_cons.
  - by apply sublist_skip.
Qed.

Lemma fetched_NoDup k url tags :
  NoDup (fetched_of (resolve_refs url (discovered k tags)).1).*1.
Proof.
  eapply sublist_NoDup; [|apply fetched_of_fst_sublist].
  eapply sublist_NoDup; [|apply resolve_refs_fst_sublist].
  eapply sublist_NoDup; [|apply discovered_in_fst_sublist].
  unfold enumerate. rewrite enumerate_from_fst. apply NoDup_seq.
Qed.

Lemma elem_of_fetchable k url tags idx response :
  (idx, response) ∈ fetchable k url tags <->
  exists tag href asset_url,
    tags !! idx = Some tag /\ reference k tag = Some href /\
    urljoin url href = inr asset_url /\ outcome asset_url = inr response.
Proof.
  unfold fetchable, fetchable_in. rewrite list_elem_of_omap. split.
  - intros ([i href] & (tag & ? & ?)%elem_of_discovered & Hf).
    destruct (urljoin url href) as [|u] eqn:Hu; [done|].
    destruct (outcome u) as [|r] eqn:E; [done|].
    injection Hf as -> ->. by exists tag, href, u.
  - intros (tag & href & u & Hl & Hr & Hu & Ho). exists (idx, href).
    split; [apply elem_of_discovered; eauto | by rewrite Hu, Ho].
Qed.

(** *** Files *)

Lemma lookup_write_all_other k l fs path :
  (forall idx response, (idx, response) ∈ l -> archived_file k idx <> path) ->
  write_all k l fs !! path = fs !! path.
Proof.
  revert fs. induction l as [|[idx r] l IH]; intros fs H; simpl; [done|].
  rewrite IH.
  - apply lookup_insert_ne. apply (H idx r). left.
  - intros idx' r' Hin. apply (H idx' r'). by right.
Qed.

Lemma lookup_write_all k l fs idx response :
  Inj (=) (=) (archived_file k) ->
  NoDup l.*1 -> (idx, response) ∈ l ->
  write_all k l fs !! archived_file k idx = Some (text response).
Proof.
  intros Hinj. revert fs.
  induction l as [|[i r] l IH]; intros fs Hnd Hin; simpl.
  - by apply elem_of_nil in Hin.
  - apply NoDup_cons in Hnd as [Hi Hnd].
    apply elem_of_cons in Hin as [Heq | Hin].
    + simplify_eq. rewrite lookup_write_all_other; [apply lookup_insert_eq|].
      intros idx' r' Hin' Heq. apply Hinj in Heq as ->.
      apply Hi. apply list_elem_of_fmap. by eexists (_, r').
    + by apply IH.
Qed.

Lemma find_one_stored url d (docs : list Document) :
  d ∈ docs -> d_url d = url ->
  is_Some (List.find (matches_query (ByUrl url)) docs).
Proof.
  intros Hin Hurl.
  destruct (List.find _ docs) eqn:E; [by eexists|].
  apply find_none with (x := d) in E; [|by apply list_elem_of_In].
  simpl in E. rewrite Hurl, String.eqb_refl in E. discriminate.
Qed.

Lemma find_one_absent url (docs : list Document) :
  (forall d, d ∈ docs -> d_url d <> url) ->
  List.find (matches_query (ByUrl url)) docs = None.
Proof.
  intros H. destruct (List.find _ docs) as [d|] eqn:E; [|done].
  apply find_some in E as [Hin Hm]. simpl in Hm.
  apply String.eqb_eq in Hm. by apply list_elem_of_In, H in Hin.
Qed.


Lemma write_all_is_Some k l fs path :
  is_Some (fs !! path) -> is_Some (write_all k l fs !! path).
Proof.
  revert fs. induction l as [|[idx r] l IH]; intros fs H; simpl; [done|].
  apply IH. rewrite lookup_insert_is_Some.
  destruct (decide (archived_file k idx = path)); [by left | by right].
Qed.

(** *** The effects of the loops and the collection *)





Lemma find_one_None_absent url (docs : list Document) :
  List.find (matches_query (ByUrl url)) docs = None ->
  forall d, d ∈ docs -> d_url d <> url.
Proof.
  intros Hfind d Hin Hurl.
  destruct (find_one_stored url d docs Hin Hurl) as [d0 Hd0]. congruence.
Qed.

(** The files of the world once both loops have run to their end. *)
Lemma archived_world_files url response w :
  files (archived_world url response w)
  = write_all script
      (fetched_of (resolve_refs url (discovered script (script_tags response))).1)
      (write_all stylesheet
         (fetched_of
            (resolve_refs url (discovered stylesheet (link_tags response))).1)
         (files w)).
Proof. reflexivity. Qed.

Lemma archived_world_stylesheet url response w idx asset :
  resolves stylesheet url (link_tags response) ->
  (idx, asset) ∈ fetchable stylesheet url (link_tags response) ->
  files (archived_world url response w) !! archived_file stylesheet idx
  = Some (text asset).
Proof.
  intros Hres%resolves_None Hin. rewrite archived_world_files.
  rewrite lookup_write_all_other.
  - apply lookup_write_all; [apply archived_file_stylesheet_inj | |].
    + apply fetched_NoDup.
    + by rewrite fetched_of_resolved.
  - intros i r _. apply archived_file_disjoint.
Qed.

Lemma archived_world_script url response w idx asset :
  resolves script url (script_tags response) ->
  (idx, asset) ∈ fetchable script url (script_tags response) ->
  files (archived_world url response w) !! archived_file script idx
  = Some (text asset).
Proof.
  intros Hres%resolves_None Hin. rewrite archived_world_files.
  apply lookup_write_all; [apply archived_file_script_inj | |].
  - apply fetched_NoDup.
  - by rewrite fetched_of_resolved.
Qed.

(** *** [scrape_website] by its answer *)

(** When every reference resolves, both loops run to their end. *)
Lemma scrape_website_resolved url response w :
  outcome url = inr response ->
  resolves stylesheet url (link_tags response) ->
  resolves script url (script_tags response) ->
  scrape_website url w
  = let aw := archived_world url response w in
    match List.find (matches_query (ByUrl url)) (collection w) with
    | Some _ =>
        (HTTPException 400 "This URL has already been scraped.",
         log (FindOne (ByUrl url)) aw)
    | None =>
        let d := {| d_id := new_ObjectId (log (FindOne (ByUrl url)) aw);
                    d_url := url;
                    d_html := prettify (BeautifulSoup (content response));
                    d_css_files :=
                      (archived_path stylesheet ∘ fst)
                        <$> fetchable stylesheet url (link_tags response);
                    d_js_files :=
                      (archived_path script ∘ fst)
                        <$> fetchable script url (script_tags response) |} in
        (RedirectResponse ("/render/" +:+ str (d_id d)) 303,
         {| files := files aw; collection := collection w ++ [d];
            trace := trace aw ++ [FindOne (ByUrl url); InsertOne d] |})
    end.
Proof.
  intros Ho Hcss%resolves_None Hjs%resolves_None.
  rewrite (scrape_website_fetched _ _ _ Ho). cbn zeta.
  rewrite Hcss, Hjs. unfold fetchable.
  by rewrite <- !fetched_of_resolved.
Qed.

(** A scrape that answers with a redirect has fetched the page, resolved
    every reference and found no document of the URL. *)
Lemma scrape_website_redirect url w location status w' :
  scrape_website url w = (RedirectResponse location status, w') ->
  exists response,
    outcome url = inr response /\
    resolves stylesheet url (link_tags response) /\
    resolves script url (script_tags response) /\
    List.find (matches_query (ByUrl url)) (collection w) = None.
Proof.
  destruct (outcome url) as [e|response] eqn:Ho.
  - by rewrite (scrape_website_failed _ _ _ Ho).
  - rewrite (scrape_website_fetched _ _ _ Ho). cbn zeta.
    destruct (resolve_refs url (discovered stylesheet (link_tags response))).2
      eqn:Hcss; [done|].
    destruct (resolve_refs url (discovered script (script_tags response))).2
      eqn:Hjs; [done|].
    destruct (List.find _ (collection w)) eqn:Hfind; [done|].
    intros _. exists response. by rewrite !resolves_None.
Qed.


(** The collection after a scrape, whatever its answer. *)
Lemma scrape_website_collection url w :
  collection (scrape_website url w).2 = collection w \/
  exists d,
    collection (scrape_website url w).2 = collection w ++ [d] /\
    d_url d = url /\
    forall d0, d0 ∈ collection w -> d_url d0 <> url.
Proof.
  destruct (outcome url) as [e|response] eqn:Ho.
  - left. by rewrite (scrape_website_failed _ _ _ Ho).
  - rewrite (scrape_website_fetched _ _ _ Ho). cbn zeta.
    destruct (resolve_refs url (discovered stylesheet _)).2; [by left|].
    destruct (resolve_refs url (discovered script _)).2; [by left|].
    destruct (List.find _ (collection w)) eqn:Hfind; [by left|].
    right. eexists. split; [reflexivity|]. split; [done|].
    by apply find_one_None_absent.
Qed.

(** The trace and the files after a scrape, whatever its answer: what
    the two loops did, as far as they got. *)
Lemma scrape_website_effects url response w :
  outcome url = inr response ->
  exists css js tail,
    css = (resolve_refs url (discovered stylesheet (link_tags response))).1 /\
    (js = [] \/
     js = (resolve_refs url (discovered script (script_tags response))).1) /\
    files (scrape_website url w).2
    = write_all script (fetched_of js)
        (write_all stylesheet (fetched_of css) (files w)) /\
    trace (scrape_website url w).2
    = trace w ++ HttpGet url :: asset_events stylesheet css
        ++ asset_events script js ++ tail /\
    writes_of tail = [] /\ requests_of tail = [] /\
    (forall d, InsertOne d ∈ tail ->
               collection (scrape_website url w).2 = collection w ++ [d]) /\
    ((resolve_refs url (discovered stylesheet (link_tags response))).2 = None ->
     (resolve_refs url (discovered script (script_tags response))).2 = None ->
     js = (resolve_refs url (discovered script (script_tags response))).1).
Proof.
  intros Ho. rewrite (scrape_website_fetched _ _ _ Ho). cbn zeta.
  set (css := resolve_refs url (discovered stylesheet (link_tags response))).
  set (js := resolve_refs url (discovered script (script_tags response))).
  destruct css.2 eqn:Hcss.
  { exists css.1, [], []. cbn [snd after_loop log files trace].
    split; [done|]. split; [by left|]. split; [done|].
    split; [by rewrite !app_nil_r, <- app_assoc|].
    split; [done|]. split; [done|].
    split; [by intros d ?%elem_of_nil | done]. }
  destruct js.2 eqn:Hjs.
  { exists css.1, js.1, []. cbn [snd after_loop log files trace].
    split; [done|]. split; [by right|]. split; [done|].
    split; [rewrite !app_nil_r;
            repeat (rewrite <- app_assoc; cbn [app]); reflexivity|].
    split; [done|]. split; [done|].
    split; [by intros d ?%elem_of_nil | done]. }
  destruct (List.find _ (collection w)) as [found|].
  - exists css.1, js.1, [FindOne (ByUrl url)].
    cbn [snd after_loop log files trace collection].
    split; [done|]. split; [by right|]. split; [done|].
    split; [repeat (rewrite <- app_assoc; cbn [app]); reflexivity|].
    split; [done|]. split; [done|]. split; [|done].
    by intros d ?%list_elem_of_singleton.
  - eexists css.1, js.1, [FindOne (ByUrl url); _].
    cbn [snd after_loop log files trace collection].
    split; [done|]. split; [by right|]. split; [done|].
    split; [repeat (rewrite <- app_assoc; cbn [app]); reflexivity|].
    split; [done|]. split; [done|]. split; [|done].
    intros d [? | Hd%list_elem_of_singleton]%elem_of_cons; [done|].
    by injection Hd as ->.
Qed.

(** C4. When the fetch of the page fails, by a network error or by a
    response on which [raise_for_status] raises, which it does on the
    statuses 400 to 599, [scrape_website] raises the [HTTPException] of
    status 400 whose detail ends with the text of the error, and the
    world has only gained the request of the page: no file is written,
    nothing is looked up or inserted, no asset is requested. *)
Theorem scrape_aborts_when_page_fetch_fails url e w :
  (network url = inl e \/
   exists response,
     network url = inr response /\ raise_for_status response = Some e) ->
  scrape_website url w
  = (HTTPException 400 ("Failed to fetch the URL: " +:+ str_exc e),
     log (HttpGet url) w) /\
  forall response,
    is_Some (raise_for_status response)
    <-> (400 <= status_code response < 600)%Z.
Proof.
  intros H. split; [|apply raise_for_status_is_Some].
  apply scrape_website_failed.
  unfold outcome. destruct H as [-> | (response & -> & ->)]; done.
Qed.



(** C3. After a scrape that stores a document, which it does when it
    answers with the redirect, [css_files] has one entry per stylesheet
    link whose fetch succeeded, in the order of the links in the page and
    with nothing for the links whose fetch failed: the entry is
    [/static/css/style_idx.css] for the link numbered [idx], and the file
    served under that path holds the text fetched for that link. *)
Theorem css_files_are_the_fetched_stylesheets url w location status w' :
  scrape_website url w = (RedirectResponse location status, w') ->
  exists response d,
    outcome url = inr response /\
    collection w' = collection w ++ [d] /\
    location = "/render/" +:+ str (d_id d) /\
    let links := discovered stylesheet (link_tags response) in
    let fetched := fetchable_in url links in
    resolves stylesheet url (link_tags response) /\
    length (d_css_files d) = length fetched /\
    Forall2 (fun path '(idx, asset) =>
               path = "/static/css/style_" +:+ pretty idx +:+ ".css" /\
               exists file,
                 static_file path = Some file /\
                 files w' !! file = Some (text asset))
            (d_css_files d) fetched.
Proof.
  intros Hrun.
  destruct (scrape_website_redirect _ _ _ _ _ Hrun)
    as (response & Ho & Hcss & Hjs & Hfind).
  rewrite (scrape_website_resolved _ _ _ Ho Hcss Hjs) in Hrun.
  cbn zeta in Hrun. rewrite Hfind in Hrun. injection Hrun as <- _ <-.
  eexists response, _. split; [done|]. split; [reflexivity|].
  split; [reflexivity|]. cbn zeta. split; [done|].
  cbn [d_css_files files]. split; [apply length_fmap|].
  apply Forall2_fmap_l, Forall_Forall2_diag, Forall_forall.
  intros [idx asset] Hin. split; [done|].
  exists (archived_file stylesheet idx). split; [done|].
  by apply archived_world_stylesheet.
Qed.




(** C1, as the code has it.  In a loop that runs to its end, the index
    in the name of an archived file is the position of its tag among all
    the tags the loop runs over: every [link] tag whose [rel] has the
    value [stylesheet], with or without an [href], and every [script] tag
    that has a [src] attribute, empty or not.  A tag without a reference
    is skipped but keeps its index. *)
Theorem archived_index_is_the_position_of_the_tag k url tags w saved w' :
  archive k url tags w = (inr saved, w') ->
  (forall path,
     path ∈ saved <->
     exists idx tag ref asset_url asset,
       tags !! idx = Some tag /\
       bs4.get (attribute k) tag = Some ref /\ PyStr.truthy ref = true /\
       urljoin url ref = inr asset_url /\
       outcome asset_url = inr asset /\
       path = public_path k (filename k idx)) /\
  (forall name attrs contents,
     bs4.search_tag "script" [("src", bs4.MTrue)] (bs4.Tag name attrs contents)
     = true <-> name = "script" /\ is_Some (bs4.assoc "src" attrs)) /\
  (forall name attrs contents,
     bs4.search_tag "link" [("rel", bs4.MStr "stylesheet")]
                    (bs4.Tag name attrs contents) = true <->
     name = "link" /\
     exists rel, bs4.assoc "rel" attrs = Some rel /\
       ("stylesheet" ∈ bs4.nonwhitespace rel \/
        PyStr.join " " (bs4.nonwhitespace rel) = "stylesheet")).
Proof.
  intros Hrun. split; [|split].
  - rewrite archive_run in Hrun.
    destruct (resolve_refs url (discovered k tags)).2 eqn:Hres; [done|].
    injection Hrun as <- _. rewrite (fetched_of_resolved _ _ Hres).
    fold (fetchable k url tags). intros path.
    rewrite list_elem_of_fmap. split.
    + intros ([idx asset] & -> & Hin).
      apply elem_of_fetchable in Hin
        as (tag & ref & u & ? & [? ?]%reference_Some & ? & ?).
      by exists idx, tag, ref, u, asset.
    + intros (idx & tag & ref & u & asset & ? & ? & ? & ? & ? & ->).
      exists (idx, asset). split; [done|].
      apply elem_of_fetchable. exists tag, ref, u.
      split; [done|]. split; [by apply reference_Some | done].
  - intros name attrs contents. unfold bs4.search_tag.
    cbn [List.forallb]. rewrite andb_true_r, andb_true_iff, String.eqb_eq.
    split; (intros [-> H]; split; [done|]); revert H;
      unfold bs4.attr_value;
      replace (bs4.cdata_list_attribute "script" "src") with false
        by reflexivity;
      destruct (bs4.assoc "src" attrs); simpl; done.
  - intros name attrs contents. unfold bs4.search_tag.
    cbn [List.forallb]. rewrite andb_true_r, andb_true_iff, String.eqb_eq.
    split; (intros [-> H]; split; [done|]); revert H;
      unfold bs4.attr_value;
      replace (bs4.cdata_list_attribute "link" "rel") with true
        by reflexivity;
      destruct (bs4.assoc "rel" attrs) as [rel|]; simpl.
    * rewrite orb_true_iff, existsb_exists, String.eqb_eq.
      intros [(item & Hin & ->%String.eqb_eq) | Hj]; exists rel.
      -- split; [done|]. left. by apply list_elem_of_In.
      -- split; [done|]. by right.
    * done.
    * rewrite orb_true_iff, existsb_exists, String.eqb_eq.
      intros (rel' & [= <-] & [Hin | Hj]); [left | by right].
      exists "stylesheet". split; [by apply list_elem_of_In | done].
    * by intros (? & [=] & _).
Qed.

(** C9. The URL a scrape redirects to is [/render/] followed by the
    twenty-four digits of the identifier.  For every identifier, the
    request for that URL has this whole URL for path and an empty query
    string, hence no [template_id], and no route serves the path,
    whatever the method: the router answers 404.  The handler
    [render_template] is reached by [GET /render] alone. *)
Theorem redirect_of_scrape_is_not_served :
  (forall url w location status,
     (scrape_website url w).1 = RedirectResponse location status ->
     exists oid, location = "/render/" +:+ str oid) /\
  (forall (oid : ObjectId) method,
     routing.request_target ("/render/" +:+ str oid)
     = ("/render/" +:+ str oid, "") /\
     routing.dispatch method ("/render/" +:+ str oid) = routing.NotFound) /\
  (forall method route_path,
     routing.dispatch method route_path = routing.Handle routing.render ->
     method = "GET" /\
     (route_path = "/render" \/
      route_path = "/render" +:+ String routing.LF "")).
Proof.
  split; [|split].
  - intros url w location status Hrun.
    destruct (scrape_website url w) as [r w'] eqn:E. cbn in Hrun. subst r.
    destruct (scrape_website_redirect _ _ _ _ _ E)
      as (response & Ho & Hcss & Hjs & Hfind).
    rewrite (scrape_website_resolved _ _ _ Ho Hcss Hjs) in E.
    cbn zeta in E. rewrite Hfind in E. injection E as <- _ _. by eexists.
  - intros oid method. split; [apply request_target_str|].
    apply dispatch_below_render, endswith_slash_str.
  - apply dispatch_render.
Qed.


(** ** Further properties of [scrape_website] *)

(** X1. After a scrape that stores a document, which it does when it
    answers with the redirect, [js_files] has one entry per script whose
    fetch succeeded, in the order of the scripts in the page: the entry
    is [/static/js/script_idx.js] for the script numbered [idx], and the
    file served under that path holds the text fetched. *)
Theorem js_files_are_the_fetched_scripts url w location status w' :
  scrape_website url w = (RedirectResponse location status, w') ->
  exists response d,
    outcome url = inr response /\
    collection w' = collection w ++ [d] /\
    location = "/render/" +:+ str (d_id d) /\
    let scripts := discovered script (script_tags response) in
    let fetched := fetchable_in url scripts in
    resolves script url (script_tags response) /\
    length (d_js_files d) = length fetched /\
    Forall2 (fun path '(idx, asset) =>
               path = "/static/js/script_" +:+ pretty idx +:+ ".js" /\
               exists file,
                 static_file path = Some file /\
                 files w' !! file = Some (text asset))
            (d_js_files d) fetched.
Proof.
  intros Hrun.
  destruct (scrape_website_redirect _ _ _ _ _ Hrun)
    as (response & Ho & Hcss & Hjs & Hfind).
  rewrite (scrape_website_resolved _ _ _ Ho Hcss Hjs) in Hrun.
  cbn zeta in Hrun. rewrite Hfind in Hrun. injection Hrun as <- _ <-.
  eexists response, _. split; [done|]. split; [reflexivity|].
  split; [reflexivity|]. cbn zeta. split; [done|].
  cbn [d_js_files files]. split; [apply length_fmap|].
  apply Forall2_fmap_l, Forall_Forall2_diag, Forall_forall.
  intros [idx asset] Hin. split; [done|].
  exists (archived_file script idx). split; [done|].
  by apply archived_world_script.
Qed.

(** X2. Whatever a scrape answers, it leaves the documents of the
    collection as they were and in their order, and adds at most one: a
    document of the URL asked for, and only when no document had that URL
    before. *)
Theorem scrape_adds_at_most_one_document url w :
  collection (scrape_website url w).2 = collection w \/
  exists d,
    collection (scrape_website url w).2 = collection w ++ [d] /\
    d_url d = url /\
    forall d0, d0 ∈ collection w -> d_url d0 <> url.
Proof. apply scrape_website_collection. Qed.

(** X3. A scrape keeps the URLs of the collection distinct: when no two
    documents have the same URL before, none have after. *)
Theorem scrape_keeps_urls_unique url w :
  unique_urls (collection w) ->
  unique_urls (collection (scrape_website url w).2).
Proof.
  unfold unique_urls. intros Hnd.
  destruct (scrape_website_collection url w) as [-> | (d & -> & Hurl & Habsent)];
    [done|].
  rewrite fmap_app. apply NoDup_app. split; [done|]. split.
  - intros u Hin Hu. apply list_elem_of_singleton in Hu.
    apply list_elem_of_fmap in Hin as (d0 & -> & Hd0).
    apply (Habsent d0 Hd0). by rewrite Hu.
  - apply NoDup_singleton.
Qed.

(** X7. A scrape deletes no file, and the only files it writes are
    [static/css/style_idx.css] and [static/js/script_idx.js]: every other
    path holds after the scrape what it held before. *)
Theorem scrape_writes_only_asset_files url w path :
  (is_Some (files w !! path) ->
   is_Some (files (scrape_website url w).2 !! path)) /\
  ((forall idx : nat, path <> "static/css/style_" +:+ pretty idx +:+ ".css") ->
   (forall idx : nat, path <> "static/js/script_" +:+ pretty idx +:+ ".js") ->
   files (scrape_website url w).2 !! path = files w !! path).
Proof.
  destruct (outcome url) as [e|response] eqn:Ho.
  { by rewrite (scrape_website_failed _ _ _ Ho). }
  destruct (scrape_website_effects url response w Ho)
    as (css & js & tail & _ & _ & -> & _).
  split.
  - intros H. by do 2 apply write_all_is_Some.
  - intros Hcss Hjs. rewrite !lookup_write_all_other; [done| |].
    + intros idx _ _ Heq. by apply (Hcss idx).
    + intros idx _ _ Heq. by apply (Hjs idx).
Qed.





(** ** The tags the loops run over *)

Lemma search_tag_script e :
  bs4.search_tag "script" [("src", bs4.MTrue)] e = true ->
  exists attrs contents src,
    e = bs4.Tag "script" attrs contents /\ bs4.assoc "src" attrs = Some src.
Proof.
  destruct e as [name attrs contents|]; [|done]. unfold bs4.search_tag.
  cbn [List.forallb]. rewrite andb_true_r, andb_true_iff, String.eqb_eq.
  intros [-> H]. revert H. unfold bs4.attr_value.
  replace (bs4.cdata_list_attribute "script" "src") with false by reflexivity.
  destruct (bs4.assoc "src" attrs) as [src|] eqn:E; simpl; [|done].
  intros _. by exists attrs, contents, src.
Qed.

Lemma search_tag_link e :
  bs4.search_tag "link" [("rel", bs4.MStr "stylesheet")] e = true ->
  exists attrs contents, e = bs4.Tag "link" attrs contents.
Proof.
  destruct e as [name attrs contents|]; [|done]. unfold bs4.search_tag.
  rewrite andb_true_iff, String.eqb_eq. intros [-> _]. eauto.
Qed.

(** X9. Every tag the script loop runs over is a [script] tag that has a
    [src] attribute, so the loop skips a script only for an empty [src];
    every tag the stylesheet loop runs over is a [link] tag, and the loop
    skips it when its [href] is missing or empty. *)
Theorem loops_skip_only_empty_references response :
  (forall tag,
     tag ∈ script_tags response ->
     exists attrs contents src,
       tag = bs4.Tag "script" attrs contents /\
       bs4.get "src" tag = Some src /\
       (reference script tag = None <-> src = "")) /\
  (forall tag,
     tag ∈ link_tags response ->
     exists attrs contents,
       tag = bs4.Tag "link" attrs contents /\
       (reference stylesheet tag = None <->
        bs4.assoc "href" attrs = None \/ bs4.assoc "href" attrs = Some "")).
Proof.
  split; intros tag Hin; apply list_elem_of_In, filter_In in Hin as [_ Hs].
  - apply search_tag_script in Hs as (attrs & contents & src & -> & Hsrc).
    exists attrs, contents, src. split; [done|]. split; [done|].
    unfold reference. cbn. rewrite Hsrc. cbn.
    destruct src; cbn; split; done.
  - apply search_tag_link in Hs as (attrs & contents & ->).
    exists attrs, contents. split; [done|].
    unfold reference. cbn.
    destruct (bs4.assoc "href" attrs) as [[|a href]|]; cbn.
    + split; [by right | done].
    + split; [done | by intros [? | ?]].
    + split; [by left | done].
Qed.

(** ** Files of one scrape *)





(** X15. What a scrape stores, a render gives back: after a scrape that
    answers with a redirect to a URL that is the one of no document
    stored before, the answer of [render_template] on the text of the
    identifier, the text the redirect ends with, holds the prettified
    page and the paths of the assets archived. *)
Theorem render_after_scrape url w location status w' :
  scrape_website url w = (RedirectResponse location status, w') ->
  (forall d, d ∈ collection w -> "/render/" +:+ str (d_id d) <> location) ->
  exists response oid,
    outcome url = inr response /\
    location = "/render/" +:+ str oid /\
    (render_template (str oid) w').1
    = TemplateResponse "render.html"
        (prettify (BeautifulSoup (content response)))
        ((archived_path stylesheet ∘ fst)
           <$> fetchable stylesheet url (link_tags response))
        ((archived_path script ∘ fst)
           <$> fetchable script url (script_tags response)).
Proof.
  intros Hrun Hfresh.
  destruct (scrape_website_redirect _ _ _ _ _ Hrun)
    as (response & Ho & Hcss & Hjs & Hfind).
  rewrite (scrape_website_resolved _ _ _ Ho Hcss Hjs) in Hrun.
  cbn zeta in Hrun. rewrite Hfind in Hrun. injection Hrun as <- _ <-.
  match goal with
  | |- context [ collection w ++ [?doc] ] => set (d := doc)
  end.
  exists response, (d_id d). split; [done|]. split; [done|].
  rewrite (render_template_stored d); [done| |].
  - cbn [collection]. apply elem_of_app. right. left.
  - cbn [collection]. intros d' Hin Hid.
    apply elem_of_app in Hin as [Hin | Hin].
    + apply Hfresh in Hin. by rewrite Hid in Hin.
    + by apply list_elem_of_singleton in Hin.
Qed.


(** The document a scrape adds, when it adds one. *)
Lemma scrape_website_stored url response w d :
  outcome url = inr response ->
  collection (scrape_website url w).2 = collection w ++ [d] ->
  d_url d = url /\ d_html d = prettify (BeautifulSoup (content response)).
Proof.
  intros Ho. rewrite (scrape_website_fetched _ _ _ Ho). cbn zeta.
  assert (collection w <> collection w ++ [d]) as Hne.
  { intros H%(f_equal length). rewrite length_app in H. simpl in H. lia. }
  destruct (resolve_refs url (discovered stylesheet _)).2; [done|].
  destruct (resolve_refs url (discovered script _)).2; [done|].
  destruct (List.find _ (collection w)); [done|].
  cbn [snd collection]. intros H%app_inv_head. by injection H as <-.
Qed.

End Properties.

(** ** What is stored of the page *)

(** C7. After a scrape that stores a document, which it does when it
    answers with the redirect, the document has the URL asked for and its
    [html] is the text [prettify] gives for the tree parsed from the
    content of the response: the tree as the parser built it, for the
    text is taken before the loops run and the loops only read the tree.
    No path recorded for an asset enters it: the [html] depends on the
    content of the page alone, so every scrape that stores a page of the
    same content stores the same [html], whatever its URL, the answers of
    the network for its assets, the files archived and the collection. *)
Theorem stored_html_is_the_prettified_page
    lib network BeautifulSoup prettify new_ObjectId
    url w location status w' :
  scrape_website lib network BeautifulSoup prettify new_ObjectId url w
  = (RedirectResponse location status, w') ->
  exists response d,
    outcome network url = inr response /\
    collection w' = collection w ++ [d] /\
    d_url d = url /\
    d_html d = prettify (BeautifulSoup (content response)) /\
    forall lib2 network2 new_ObjectId2 url2 response2 w2 d2,
      outcome network2 url2 = inr response2 ->
      content response2 = content response ->
      collection (scrape_website lib2 network2 BeautifulSoup prettify
                                 new_ObjectId2 url2 w2).2
      = collection w2 ++ [d2] ->
      d_html d2 = d_html d.
Proof.
  intros Hrun.
  destruct (scrape_website_redirect _ _ _ _ _ _ _ _ _ _ Hrun)
    as (response & Ho & Hcss & Hjs & Hfind).
  rewrite (scrape_website_resolved _ _ _ _ _ _ _ _ Ho Hcss Hjs) in Hrun.
  cbn zeta in Hrun. rewrite Hfind in Hrun. injection Hrun as <- _ <-.
  eexists response, _. split; [done|]. split; [reflexivity|].
  split; [done|]. split; [done|].
  intros lib2 network2 new_ObjectId2 url2 response2 w2 d2 Ho2 Hc Hd2.
  destruct (scrape_website_stored _ _ _ _ _ _ _ _ _ Ho2 Hd2) as [_ ->].
  cbn [d_html]. by rewrite Hc.
Qed.


(** ** [urljoin] *)

(** C8. [urljoin] resolves a relative reference against the directory of
    the base and a reference that starts with a slash against its host. *)
Theorem urljoin_resolves_references lib :
  urllib_parse.urljoin lib "http://x.test/dir/page.html" "a/b.css"
  = inr "http://x.test/dir/a/b.css" /\
  urllib_parse.urljoin lib "http://x.test/dir/page.html" "/c.css"
  = inr "http://x.test/c.css".
Proof. split; vm_compute; reflexivity. Qed.

(** ** The routes of the handlers *)

Section MoreRoutes.
Import PyStr routing.

Lemma dispatch_Handle method route_path e :
  dispatch method route_path = Handle e ->
  exists r, In r routes /\ endpoint_of r = e /\
            matches r method route_path = FULL.
Proof.
  unfold dispatch. destruct (List.find _ routes) as [r|] eqn:E.
  - intros [= <-]. apply find_some in E as [Hin Hm]. exists r.
    split; [done|]. split; [done|]. by destruct (matches r method route_path).
  - repeat case_match; discriminate.
Qed.

Lemma matches_APIRoute_FULL path methods e method route_path :
  matches (APIRoute path methods e) method route_path = FULL ->
  method ∈ methods /\
  (route_path = path \/ route_path = path +:+ String LF "").
Proof.
  unfold matches, route_regex_match.
  destruct (_ || _) eqn:Hp; [|done].
  destruct (bool_decide _) eqn:Hm; [|done]. intros _.
  apply bool_decide_eq_true_1 in Hm. split; [done|].
  apply orb_true_iff in Hp as [Hp|Hp]; apply String.eqb_eq in Hp; auto.
Qed.

(** X13. Each handler is reached by its route alone: [home] by
    [GET /], [scrape_website] by [POST /scrape] and [render_template] by
    [GET /render] (the path may end with a newline, which the pattern of
    the route lets through). *)
Theorem handlers_are_reached_by_their_routes method route_path :
  (dispatch method route_path = Handle home <->
   method = "GET" /\
   (route_path = "/" \/ route_path = "/" +:+ String LF "")) /\
  (dispatch method route_path = Handle scrape <->
   method = "POST" /\
   (route_path = "/scrape" \/ route_path = "/scrape" +:+ String LF "")) /\
  (dispatch method route_path = Handle render <->
   method = "GET" /\
   (route_path = "/render" \/ route_path = "/render" +:+ String LF "")).
Proof.
  split; [|split];
    (split;
     [ intros (r & Hin & He & Hm)%dispatch_Handle; unfold routes in Hin;
       simpl in Hin; repeat destruct Hin as [<- | Hin]; try discriminate;
       try done; apply matches_APIRoute_FULL in Hm as [Hmeth Hp];
       by apply list_elem_of_singleton in Hmeth
     | intros [-> [-> | ->]]; vm_compute; reflexivity ]).
Qed.

End MoreRoutes.

(** * The handlers on the pages of [Fixture] *)

Import Fixture.

(** [find_all] on the page: the three links, and the two scripts that
    have a [src] attribute. *)
Example page_link_tags :
  link_tags parser page_response
  = [ bs4.Tag "link" [("rel", "stylesheet")] [];
      bs4.Tag "link" [("rel", "stylesheet"); ("href", "a/b.css")] [];
      bs4.Tag "link" [("rel", "stylesheet"); ("href", "/missing.css")] [] ].
Proof. vm_compute. reflexivity. Qed.

Example page_script_tags :
  script_tags parser page_response
  = [ bs4.Tag "script" [("src", "")] [];
      bs4.Tag "script" [("src", "app.js")] [] ].
Proof. vm_compute. reflexivity. Qed.

Example page_scraped :
  (scrape_website page_url fresh).1
  = RedirectResponse "/render/654f1a2b0000000000000000" 303 /\
  collection (scrape_website page_url fresh).2 = [stored].
Proof. split; vm_compute; reflexivity. Qed.

(** The requests and the writes of the scrape of the page. *)
Example page_requests_and_writes :
  requests_of (trace (scrape_website page_url fresh).2)
  = [ "http://x.test/dir/page.html"; "http://x.test/dir/a/b.css";
      "http://x.test/missing.css"; "http://x.test/dir/app.js" ] /\
  writes_of (trace (scrape_website page_url fresh).2)
  = [ ("static/css/style_1.css", "body{margin:0}");
      ("static/js/script_1.js", "run()") ].
Proof. split; vm_compute; reflexivity. Qed.

(** On the page of [Fixture] the duplicate scrape puts the stylesheet of
    the page back in the place of the one written since. *)
Example duplicate_scrape_overwrites :
  files scraped !! "static/css/style_1.css" = Some "h1{color:red}" /\
  (scrape_website page_url scraped).1
  = HTTPException 400 "This URL has already been scraped." /\
  files (scrape_website page_url scraped).2 !! "static/css/style_1.css"
  = Some "body{margin:0}".
Proof. repeat split; vm_compute; reflexivity. Qed.

(** What [urljoin] raises on the first reference of the second page, and
    what the scrape of that page comes to: the page is requested and
    nothing else is done. *)
Example bad_page_scraped :
  urllib_parse.urljoin lib bad_url "//["
  = inl {| urllib_parse.str_value_error := "Invalid IPv6 URL" |} /\
  scrape_website bad_url fresh
  = (Unhandled {| urllib_parse.str_value_error := "Invalid IPv6 URL" |},
     log (HttpGet bad_url) fresh).
Proof. split; vm_compute; reflexivity. Qed.

(** On the collection of [Fixture.scraped]: an identifier that is too
    short, one that is well formed and stored nowhere, and the one of the
    stored document, in upper case. *)
Example render_on_the_page :
  (render_template "654f1a2b" scraped).1
  = HTTPException 400 "Invalid template ID." /\
  (render_template "654f1a2b00000000000000ff" scraped).1
  = HTTPException 404 "Template not found." /\
  (render_template "654F1A2B0000000000000000" scraped).1
  = TemplateResponse "render.html" (d_html stored)
      ["/static/css/style_1.css"] ["/static/js/script_1.js"].
Proof. repeat split; vm_compute; reflexivity. Qed.

(** The redirect of the scrape of the page, and the route of the
    handler. *)
Example redirect_on_the_page :
  routing.dispatch "GET" "/render/654f1a2b0000000000000000" = routing.NotFound /\
  routing.dispatch "GET" "/render" = routing.Handle routing.render /\
  routing.dispatch "POST" "/render" = routing.MethodNotAllowed /\
  routing.dispatch "GET" "/static" = routing.Redirect "/static/".
Proof. repeat split; vm_compute; reflexivity. Qed.


(** ** The claims that fail, on the pages *)

(** C1, as the claim has it, fails on the page.  The second link is the
    first that carries an [href] and the second script the first that
    carries a non-empty [src]: were the tags without a reference not
    counted, the files would be [style_0.css] and [script_0.js].  The
    scrape records [style_1.css] and [script_1.js]. *)
Lemma tag_without_reference_consumes_an_index :
  d_css_files <$> collection (scrape_website page_url fresh).2
  = [["/static/css/style_1.css"]] /\
  d_js_files <$> collection (scrape_website page_url fresh).2
  = [["/static/js/script_1.js"]] /\
  (archive lib network stylesheet page_url
     (carriers stylesheet (link_tags parser page_response)) fresh).1
  = inr ["/static/css/style_0.css"] /\
  (archive lib network script page_url
     (carriers script (script_tags parser page_response)) fresh).1
  = inr ["/static/js/script_0.js"].
Proof. repeat split; vm_compute; reflexivity. Qed.




(** ** The theorems on the pages *)

Lemma archived_index_is_the_position_of_the_tag_witness :
  let tags := link_tags parser page_response in
  archive lib network stylesheet page_url tags fresh
  = (inr ["/static/css/style_1.css"],
     (archive lib network stylesheet page_url tags fresh).2) /\
  forall path,
    path ∈ ["/static/css/style_1.css"] <->
    exists idx tag ref asset_url asset,
      tags !! idx = Some tag /\
      bs4.get (attribute stylesheet) tag = Some ref /\
      PyStr.truthy ref = true /\
      urllib_parse.urljoin lib page_url ref = inr asset_url /\
      outcome network asset_url = inr asset /\
      path = public_path stylesheet (filename stylesheet idx).
Proof.
  intros tags.
  assert (archive lib network stylesheet page_url tags fresh
          = (inr ["/static/css/style_1.css"],
             (archive lib network stylesheet page_url tags fresh).2)) as Hrun
    by (vm_compute; reflexivity).
  split; [exact Hrun|].
  exact (proj1 (archived_index_is_the_position_of_the_tag
                  lib network stylesheet page_url tags fresh
                  ["/static/css/style_1.css"]
                  (archive lib network stylesheet page_url tags fresh).2
                  Hrun)).
Defined.



Lemma css_files_are_the_fetched_stylesheets_witness :
  let w' := (scrape_website page_url fresh).2 in
  exists response d,
    outcome network page_url = inr response /\
    collection w' = collection fresh ++ [d] /\
    "/render/654f1a2b0000000000000000" = "/render/" +:+ str (d_id d) /\
    let links := discovered stylesheet (link_tags parser response) in
    let fetched := fetchable_in lib network page_url links in
    resolves lib stylesheet page_url (link_tags parser response) /\
    length (d_css_files d) = length fetched /\
    Forall2 (fun path '(idx, asset) =>
               path = "/static/css/style_" +:+ pretty idx +:+ ".css" /\
               exists file,
                 static_file path = Some file /\
                 files w' !! file = Some (text asset))
            (d_css_files d) fetched.
Proof.
  intros w'.
  apply (css_files_are_the_fetched_stylesheets lib network parser prettify
           new_ObjectId page_url fresh
           "/render/654f1a2b0000000000000000" 303 w').
  vm_compute. reflexivity.
Defined.

Lemma scrape_aborts_when_page_fetch_fails_witness :
  scrape_website "http://x.test/missing.css" fresh
  = (HTTPException 400
       ("Failed to fetch the URL: " +:+
        "404 Client Error: Not Found for url: http://x.test/missing.css"),
     log (HttpGet "http://x.test/missing.css") fresh) /\
  forall response,
    is_Some (raise_for_status response)
    <-> (400 <= status_code response < 600)%Z.
Proof.
  apply (scrape_aborts_when_page_fetch_fails lib network parser prettify
           new_ObjectId "http://x.test/missing.css"
           {| str_exc := "404 Client Error: Not Found for url: http://x.test/missing.css" |}
           fresh).
  right. eexists. split; reflexivity.
Defined.


Lemma stored_html_is_the_prettified_page_witness :
  let w' := (scrape_website page_url fresh).2 in
  exists response d,
    outcome network page_url = inr response /\
    collection w' = collection fresh ++ [d] /\
    d_url d = page_url /\
    d_html d = prettify (parser (content response)).
Proof.
  intros w'.
  destruct (stored_html_is_the_prettified_page lib network parser prettify
              new_ObjectId page_url fresh
              "/render/654f1a2b0000000000000000" 303 w')
    as (response & d & H1 & H2 & H3 & H4 & _).
  - vm_compute. reflexivity.
  - exists response, d. exact (conj H1 (conj H2 (conj H3 H4))).
Defined.

(** The [html] stored for the page, with the stand-in for [prettify]: the
    references are those of the page. *)
Example stored_html_of_the_page :
  d_html <$> collection (scrape_website page_url fresh).2
  = [prettify page_soup] /\
  bs4.get "href" <$> link_tags parser page_response
  = [None; Some "a/b.css"; Some "/missing.css"].
Proof. split; vm_compute; reflexivity. Qed.

Lemma js_files_are_the_fetched_scripts_witness :
  let w' := (scrape_website page_url fresh).2 in
  exists response d,
    outcome network page_url = inr response /\
    collection w' = collection fresh ++ [d] /\
    "/render/654f1a2b0000000000000000" = "/render/" +:+ str (d_id d) /\
    let scripts := discovered script (script_tags parser response) in
    let fetched := fetchable_in lib network page_url scripts in
    resolves lib script page_url (script_tags parser response) /\
    length (d_js_files d) = length fetched /\
    Forall2 (fun path '(idx, asset) =>
               path = "/static/js/script_" +:+ pretty idx +:+ ".js" /\
               exists file,
                 static_file path = Some file /\
                 files w' !! file = Some (text asset))
            (d_js_files d) fetched.
Proof.
  intros w'.
  apply (js_files_are_the_fetched_scripts lib network parser prettify
           new_ObjectId page_url fresh
           "/render/654f1a2b0000000000000000" 303 w').
  vm_compute. reflexivity.
Defined.

Lemma scrape_keeps_urls_unique_witness :
  unique_urls (collection scraped) /\
  unique_urls (collection (scrape_website page_url scraped).2).
Proof.
  assert (unique_urls (collection scraped)) as H
    by (unfold unique_urls; simpl; apply NoDup_singleton).
  split; [exact H|].
  exact (scrape_keeps_urls_unique lib network parser prettify new_ObjectId
           page_url scraped H).
Defined.


Lemma render_answers_the_stored_document_witness :
  (render_template (str (d_id stored)) scraped).1
  = TemplateResponse "render.html" (d_html stored) (d_css_files stored)
                     (d_js_files stored).
Proof.
  apply (render_answers_the_stored_document stored scraped).
  - simpl. left.
  - simpl. intros d' Hd' _. by apply list_elem_of_singleton in Hd'.
Defined.



Lemma render_after_scrape_witness :
  let w' := (scrape_website page_url fresh).2 in
  exists response oid,
    outcome network page_url = inr response /\
    "/render/654f1a2b0000000000000000" = "/render/" +:+ str oid /\
    (render_template (str oid) w').1
    = TemplateResponse "render.html"
        (prettify (parser (content response)))
        ((archived_path stylesheet ∘ fst)
           <$> fetchable lib network stylesheet page_url
                 (link_tags parser response))
        ((archived_path script ∘ fst)
           <$> fetchable lib network script page_url
                 (script_tags parser response)).
Proof.
  intros w'.
  apply (render_after_scrape lib network parser prettify new_ObjectId
           page_url fresh "/render/654f1a2b0000000000000000" 303 w').
  - vm_compute. reflexivity.
  - simpl. intros d Hd. by apply elem_of_nil in Hd.
Defined.

